(** * Iamus: the handlers of [/api/v1/domains/:domainId]

    A shallow embedding of [src/routes/api/v1/domains/domainId.ts]: the three
    request handlers [procGetDomainsDomainid], [procPutDomains] and
    [procDeleteDomains], written in a small state-and-exception monad over
    the request's response object, the entity store, the clock and the
    trace of calls made to the collaborators the file imports. *)

From stdpp Require Import gmap strings list fin_maps pretty.
From Stdlib Require Import Sorting.Sorted.

Set Warnings "-register-all".
Set Default Proof Using "Type".
Open Scope string_scope.
Open Scope list_scope.

(** ** JavaScript values

    The request body is whatever the JSON body parser produced, so the
    handlers are modelled over untyped values.  Objects are finite maps from
    property names to values; numbers are integers (no handler does
    arithmetic on them); [JDate] is the result of [new Date()] as
    milliseconds since the epoch. *)

Inductive JValue : Type :=
  | JUndefined
  | JNull
  | JBool (b : bool)
  | JNum (n : Z)
  | JStr (s : string)
  | JDate (ms : Z)
  | JArr (l : list JValue)
  | JObj (m : gmap string JValue).

(** A [VKeyedCollection] is [{ [key: string]: any }]. *)
Abbreviation VKeyedCollection := (gmap string JValue).

Inductive JSError : Type :=
  | TypeError (msg : string).

Inductive Completion (A : Type) : Type :=
  | Normal (a : A)
  | Throw (e : JSError).
Arguments Normal {A} a.
Arguments Throw {A} e.

(** [if (v)]: the values JavaScript treats as false are [undefined], [null],
    [false], [0] and the empty string; every object, array and date is
    true, the empty object included. *)
Definition truthy (v : JValue) : bool :=
  match v with
  | JUndefined | JNull => false
  | JBool b => b
  | JNum n => negb (n =? 0)%Z
  | JStr s => negb (bool_decide (s = ""))
  | JDate _ | JArr _ | JObj _ => true
  end.

(** The own property names of an array or of a string: ["length"] and the
    decimal indices below the length. *)
Definition isIndexBelow (n : nat) (p : string) : bool :=
  existsb (λ i : nat, bool_decide (pretty i = p)) (seq 0 n).

(** [v.p] and [v[p]].  Reading a property of [undefined] or [null] throws.
    Inherited properties are not modelled: the handlers read only
    [domain], [meta], [heartbeat], [num_users], [num_anon_users] and the
    allow-listed names, none of which is defined on a built-in prototype. *)
Definition getProp (v : JValue) (p : string) : Completion JValue :=
  match v with
  | JUndefined => Throw (TypeError "Cannot read properties of undefined")
  | JNull => Throw (TypeError "Cannot read properties of null")
  | JObj m => Normal (default JUndefined (m !! p))
  | JArr l =>
      if bool_decide (p = "length") then Normal (JNum (Z.of_nat (length l)))
      else Normal (default JUndefined
                     ((fst <$> list_find (λ i : nat, pretty i = p) (seq 0 (length l)))
                        ≫= λ i, l !! i))
  | JStr s =>
      if bool_decide (p = "length") then Normal (JNum (Z.of_nat (String.length s)))
      else Normal (default JUndefined
                     ((fst <$> list_find (λ i : nat, pretty i = p) (seq 0 (String.length s)))
                        ≫= λ i, (λ c, JStr (String c "")) <$> String.get i s))
  | JBool _ | JNum _ | JDate _ => Normal JUndefined
  end.

(** [v.hasOwnProperty(p)].  The method is looked up on [v] first: an object
    that carries an own property named [hasOwnProperty] shadows the
    inherited method, and since parsed JSON holds no function the call
    throws. *)
Definition hasOwnProperty (v : JValue) (p : string) : Completion bool :=
  match v with
  | JUndefined => Throw (TypeError "Cannot read properties of undefined")
  | JNull => Throw (TypeError "Cannot read properties of null")
  | JObj m =>
      if bool_decide (is_Some (m !! "hasOwnProperty"))
      then Throw (TypeError "valuesToSet.hasOwnProperty is not a function")
      else Normal (bool_decide (is_Some (m !! p)))
  | JArr l => Normal (bool_decide (p = "length") || isIndexBelow (length l) p)
  | JStr s => Normal (bool_decide (p = "length") || isIndexBelow (String.length s) p)
  | JBool _ | JNum _ | JDate _ => Normal false
  end.

(** ** Entities and the request context *)

(** Entities are string-keyed objects; [domainId] and [placeId] are kept
    apart because the handlers and the store address entities by them. *)
Record DomainEntity : Type := mkDomain {
  domainId : string;
  domainFields : VKeyedCollection
}.

Record AccountEntity : Type := mkAccount {
  accountId : string;
  administrator : bool
}.

Record PlaceEntity : Type := mkPlace {
  placeId : string;
  placeDomainId : string
}.

(** What a credential resolves to: an account, or a domain that proved
    itself with its API key. *)
Inductive Identity : Type :=
  | AccountIdentity (a : AccountEntity)
  | DomainIdentity (id : string).

Record AuthToken : Type := mkToken {
  token : string;
  identity : option Identity
}.

Inductive Perm : Type := DOMAIN | SPONSOR | ADMIN.

#[global] Instance Perm_eq_dec : EqDecision Perm.
Proof. solve_decision. Defined.

(** Modelled from the spec: the [HTTPStatusCode] enumeration of
    [@Route-Tools/RESTResponse], which is not part of the sources at hand;
    the handlers only ever name [Unauthorized]. *)
Inductive HTTPStatusCode : Type := OK | BadRequest | Unauthorized | Forbidden | NotFound.

(** Modelled from the spec: the response object [req.vRestResp] of
    [@Route-Tools/RESTResponse] (section 4.5: success flag, optional data,
    optional failure message, status code), with the extra top-level fields
    that [addAdditionalField] collects. *)
Record RESTResponse : Type := mkResp {
  success : bool;
  message : option string;
  Data : JValue;
  additionalFields : VKeyedCollection;
  HTTPStatus : HTTPStatusCode
}.

(** The response as [setupMetaverseAPI] hands it to a handler. *)
Definition newRESTResponse : RESTResponse :=
  {| success := true; message := None; Data := JUndefined;
     additionalFields := ∅; HTTPStatus := OK |}.

(** The part of the Express request the handlers read.  [vDomain] and
    [vDomainError] are set by [domainFromParams], [vAuthToken] and
    [vAuthAccount] by the authentication middleware; each may be absent. *)
Record Request : Type := mkReq {
  vDomain : option DomainEntity;
  vDomainError : option string;
  vAuthToken : option AuthToken;
  vAuthAccount : option AccountEntity;
  body : JValue
}.

(** ** The store, and the trace of collaborator calls *)

Record Store : Type := mkStore {
  domains : gmap string DomainEntity;
  places : list PlaceEntity
}.

Inductive Call : Type :=
  | Call_setDomainField (field : string) (val : JValue)
  | Call_updateEntityFields (id : string) (updated : VKeyedCollection)
  | Call_removeDomain (id : string)
  | Call_removePlace (id : string)
  | Call_next.

Record State : Type := mkState {
  store : Store;
  vRestResp : RESTResponse;
  clock : Z;
  calls : list Call
}.

Definition setStore (f : Store → Store) (s : State) : State :=
  {| store := f (store s); vRestResp := vRestResp s; clock := clock s; calls := calls s |}.
Definition setResp (f : RESTResponse → RESTResponse) (s : State) : State :=
  {| store := store s; vRestResp := f (vRestResp s); clock := clock s; calls := calls s |}.
Definition addCall (c : Call) (s : State) : State :=
  {| store := store s; vRestResp := vRestResp s; clock := clock s; calls := calls s ++ [c] |}.

(** ** The handler monad: state, and exceptions that keep the state *)

Definition M (A : Type) : Type := State → Completion A * State.

#[global] Instance M_ret : MRet M := λ A a s, (Normal a, s).
#[global] Instance M_bind : MBind M := λ A B f m s,
  match m s with
  | (Normal a, s') => f a s'
  | (Throw e, s') => (Throw e, s')
  end.

Definition modify (f : State → State) : M unit := λ s, (Normal (), f s).
Definition gets {A} (f : State → A) : M A := λ s, (Normal (f s), s).
Definition lift {A} (c : Completion A) : M A := λ s, (c, s).

(** [for (const x of l) { body }] over a local variable of type [S]. *)
Fixpoint for_of {A S : Type} (l : list A) (body : A → S → M S) (acc : S) : M S :=
  match l with
  | [] => mret acc
  | x :: l' => acc' ← body x acc; for_of l' body acc'
  end.

(** ** Collaborators

    The functions the file imports from other modules of the repository and
    whose results steer the handlers.  Their code is not among the sources
    at hand, so the handlers are parameterised by them.  They are taken to
    read only what they are passed and to return without throwing; the
    engine's one effect, writing into the change-set it is handed, is
    modelled by returning that change-set. *)
Class Collaborators : Type := {
  (** [@Route-Tools/Permissions]: does the credential hold one of the
      listed roles on the entity? *)
  checkAccessToEntity : option AuthToken → DomainEntity → list Perm → bool;
  (** [@Entities/DomainEntity]: validate one field and record it in the
      change-set, which it returns. *)
  setDomainField : option AuthToken → DomainEntity → string → JValue →
                   option AccountEntity → VKeyedCollection → VKeyedCollection;
  (** [@Entities/Accounts]. *)
  isAdmin : AccountEntity → bool;
  (** [@Route-Tools/Util]: the public snapshot of a domain. *)
  buildDomainInfoV1 : DomainEntity → VKeyedCollection
}.

Module RESTResponse.
(** Modelled from the spec: [respondFailure] of the response object
    (section 6: a failure is [{ success: false, message }]). *)
Definition respondFailure (msg : string) : M unit :=
  modify (setResp (λ r,
    {| success := false; message := Some msg; Data := Data r;
       additionalFields := additionalFields r; HTTPStatus := HTTPStatus r |})).

(** [req.vRestResp.Data = v] *)
Definition setData (v : JValue) : M unit :=
  modify (setResp (λ r,
    {| success := success r; message := message r; Data := v;
       additionalFields := additionalFields r; HTTPStatus := HTTPStatus r |})).

(** Modelled from the spec: [addAdditionalField] of the response object
    (section 6: a duplicate top-level field of the reply). *)
Definition addAdditionalField (k : string) (v : JValue) : M unit :=
  modify (setResp (λ r,
    {| success := success r; message := message r; Data := Data r;
       additionalFields := <[k := v]> (additionalFields r);
       HTTPStatus := HTTPStatus r |})).

(** [req.vRestResp.HTTPStatus = c] *)
Definition setHTTPStatus (c : HTTPStatusCode) : M unit :=
  modify (setResp (λ r,
    {| success := success r; message := message r; Data := Data r;
       additionalFields := additionalFields r; HTTPStatus := c |})).
End RESTResponse.

Module Domains.
(** A field the change-set names takes its value, every other field keeps
    its own. *)
Definition mergeFields (updated : VKeyedCollection) (e : DomainEntity) : DomainEntity :=
  {| domainId := domainId e; domainFields := updated ∪ domainFields e |}.

(** Modelled from the spec: [Domains.updateEntityFields] of
    [@Entities/Domains] (section 3: the change-set is merged into the
    Domain record as one update).  The handler does not await the call; the
    store is taken to apply it when it is issued. *)
Definition updateEntityFields (d : DomainEntity) (updated : VKeyedCollection) : M unit :=
  modify (addCall (Call_updateEntityFields (domainId d) updated));;
  modify (setStore (λ st,
    {| domains := alter (mergeFields updated) (domainId d) (domains st);
       places := places st |})).

(** Modelled from the spec: [Domains.removeDomain] of [@Entities/Domains]
    (section 4.4), applied when it is issued. *)
Definition removeDomain (d : DomainEntity) : M unit :=
  modify (addCall (Call_removeDomain (domainId d)));;
  modify (setStore (λ st,
    {| domains := delete (domainId d) (domains st); places := places st |})).
End Domains.

(** Modelled from the spec: [GenericFilter] of
    [@Entities/EntityFilters/GenericFilter], for the one criterion the delete
    handler builds, [new GenericFilter({ 'domainId': id })]. *)
Inductive GenericFilter : Type :=
  | FilterDomainId (id : string).

Module Places.
(** Does the place meet the criterion? *)
Definition matches (f : GenericFilter) (p : PlaceEntity) : bool :=
  match f with
  | FilterDomainId id => bool_decide (placeDomainId p = id)
  end.

(** Modelled from the spec: [Places.enumerateAsync] of [@Entities/Places]
    (section 4.4: every Place whose [domainId] matches is produced).  The
    places are those stored when the enumeration starts. *)
Definition enumerateAsync (f : GenericFilter) : M (list PlaceEntity) :=
  gets (λ s, List.filter (matches f) (places (store s))).

(** Modelled from the spec: [Places.removePlace] of [@Entities/Places]
    (section 4.4: the Place is removed), applied when it is issued. *)
Definition removePlace (p : PlaceEntity) : M unit :=
  modify (addCall (Call_removePlace (placeId p)));;
  modify (setStore (λ st,
    {| domains := domains st;
       places := List.filter (λ q, negb (bool_decide (placeId q = placeId p))) (places st) |})).
End Places.

(** [next()], which hands the request on to [finishMetaverseAPI]. *)
Definition next : M unit := modify (addCall Call_next).

(** [new Date()]. *)
Definition newDate : M JValue := gets (λ s, JDate (clock s)).

(** ** The handlers *)

Section Handlers.
Context `{C : Collaborators}.

(** GET /api/v1/domains/:domainId *)
Definition procGetDomainsDomainid (req : Request) : M unit :=
  match vDomain req with
  | Some aDomain =>
      let domainInfo := buildDomainInfoV1 aDomain in
      let domainInfo := <["id" := default JUndefined (domainInfo !! "domainId")]> domainInfo in
      RESTResponse.setData (JObj {[ "domain" := JObj domainInfo ]});;
      RESTResponse.addAdditionalField "domain" (JObj domainInfo)
  | None =>
      RESTResponse.respondFailure (default "Domain not found" (vDomainError req));;
      RESTResponse.setHTTPStatus Unauthorized
  end;;
  next.

Definition flatFields : list string :=
  [ "version"; "protocol"; "network_addr"; "network_port"; "automatic_networking";
    "restricted"; "capacity"; "description"; "maturity"; "restriction"; "hosts"; "tags" ].

Definition metaFields : list string :=
  [ "capacity"; "contact_info"; "description"; "managers"; "tags"; "images";
    "maturity"; "restriction"; "thumbnail"; "world_name" ].

(** [await setDomainField(req.vAuthToken, req.vDomain, field, val,
    req.vAuthAccount, updated)]: the call is traced, and the change-set
    the engine wrote to is the one the handler goes on with. *)
Definition callSetDomainField (req : Request) (aDomain : DomainEntity)
    (field : string) (val : JValue) (updated : VKeyedCollection) : M VKeyedCollection :=
  modify (addCall (Call_setDomainField field val));;
  mret (setDomainField (vAuthToken req) aDomain field val (vAuthAccount req) updated).

(** The body of both allow-list loops:
    [if (valuesToSet.hasOwnProperty(field)) { await setDomainField(.., field, valuesToSet[field], ..) }] *)
Definition setIfOwn (req : Request) (aDomain : DomainEntity) (valuesToSet : JValue)
    (field : string) (updated : VKeyedCollection) : M VKeyedCollection :=
  own ← lift (hasOwnProperty valuesToSet field);
  if own : bool then
    val ← lift (getProp valuesToSet field);
    callSetDomainField req aDomain field val updated
  else mret updated.

(** PUT /api/v1/domains/:domainId

    [Logger.debug], which only formats the change-set for the log, is left
    out. *)
Definition procPutDomains (req : Request) : M unit :=
  match vDomain req with
  | Some aDomain =>
      if checkAccessToEntity (vAuthToken req) aDomain [DOMAIN; SPONSOR; ADMIN] then
        let updated : VKeyedCollection := ∅ in
        valuesToSet ← lift (getProp (body req) "domain");
        if truthy valuesToSet then
          updated ← for_of flatFields (setIfOwn req aDomain valuesToSet) updated;
          hasHeartbeat ← lift (hasOwnProperty valuesToSet "heartbeat");
          updated ←
            (if hasHeartbeat : bool then
               heartbeat ← lift (getProp valuesToSet "heartbeat");
               num_users ← lift (getProp heartbeat "num_users");
               updated ← callSetDomainField req aDomain "num_users" num_users updated;
               heartbeat ← lift (getProp valuesToSet "heartbeat");
               num_anon_users ← lift (getProp heartbeat "num_anon_users");
               callSetDomainField req aDomain "num_anon_users" num_anon_users updated
             else mret updated);
          meta ← lift (getProp valuesToSet "meta");
          updated ←
            (if truthy meta then
               let valuesToSet := meta in
               for_of metaFields (setIfOwn req aDomain valuesToSet) updated
             else mret updated);
          now ← newDate;
          let updated := <["timeOfLastHeartbeat" := now]> updated in
          Domains.updateEntityFields aDomain updated
        else
          RESTResponse.respondFailure "badly formed data"
      else
        RESTResponse.respondFailure "Unauthorized"
  | None =>
      RESTResponse.respondFailure (default "Domain not found" (vDomainError req));;
      RESTResponse.setHTTPStatus Unauthorized
  end;;
  next.

(** DELETE /api/v1/domains/:domainId *)
Definition procDeleteDomains (req : Request) : M unit :=
  match vAuthAccount req with
  | Some account =>
      if isAdmin account then
        match vDomain req with
        | Some aDomain =>
            Domains.removeDomain aDomain;;
            matching ← Places.enumerateAsync (FilterDomainId (domainId aDomain));
            for_of matching (λ place _, Places.removePlace place) ()
        | None =>
            RESTResponse.respondFailure "Target domain does not exist"
        end
      else
        RESTResponse.respondFailure "Not authorized"
  | None =>
      RESTResponse.respondFailure "Not authorized"
  end;;
  next.
End Handlers.

(** ** A reference implementation of the collaborators

    Used to run the handlers on concrete requests. *)
Module Reference.
(** Is the account listed among the managers of the domain? *)
Definition isManager (a : AccountEntity) (d : DomainEntity) : bool :=
  match domainFields d !! "managers" with
  | Some (JArr l) =>
      existsb (λ v, match v with JStr s => bool_decide (s = accountId a) | _ => false end) l
  | _ => false
  end.

(** Does the credential hold the role on the domain? *)
Definition holdsRole (tok : option AuthToken) (d : DomainEntity) (p : Perm) : bool :=
  match tok ≫= identity with
  | Some (DomainIdentity id) =>
      match p with DOMAIN => bool_decide (id = domainId d) | _ => false end
  | Some (AccountIdentity a) =>
      match p with DOMAIN => false | SPONSOR => isManager a d | ADMIN => administrator a end
  | None => false
  end.

(** Modelled from the spec: [checkAccessToEntity] of
    [@Route-Tools/Permissions] (section 4.1: the credential is resolved to
    an identity, failing closed; DOMAIN holds when the identity is the
    target itself, SPONSOR when the account is listed as a manager of the
    target, ADMIN when the account carries the administrator flag; access
    is granted iff at least one requested role holds). *)
Definition checkAccessToEntity (tok : option AuthToken) (d : DomainEntity)
    (required : list Perm) : bool :=
  existsb (holdsRole tok d) required.

Definition isString (v : JValue) : bool := match v with JStr _ => true | _ => false end.
Definition isBoolean (v : JValue) : bool := match v with JBool _ => true | _ => false end.
Definition isStringArray (v : JValue) : bool :=
  match v with JArr l => forallb isString l | _ => false end.

Definition numberFields : list string :=
  [ "network_port"; "capacity"; "num_users"; "num_anon_users" ].
Definition listFields : list string := [ "hosts"; "tags"; "managers"; "images" ].
Definition flagFields : list string := [ "restricted" ].
Definition textFields : list string :=
  [ "version"; "protocol"; "network_addr"; "automatic_networking"; "description";
    "maturity"; "restriction"; "contact_info"; "thumbnail"; "world_name" ].

(** The validator of each recognised field; an unknown name is never
    valid. *)
Definition validate (field : string) (val : JValue) : bool :=
  if bool_decide (field ∈ numberFields) then
    match val with JNum n => (0 <=? n)%Z && (negb (bool_decide (field = "network_port")) || (n <? 65536)%Z) | _ => false end
  else if bool_decide (field ∈ listFields) then isStringArray val
  else if bool_decide (field ∈ flagFields) then isBoolean val
  else if bool_decide (field ∈ textFields) then isString val
  else false.

(** Only an administrator or a manager of the domain may change the
    manager list. *)
Definition mayset (tok : option AuthToken) (d : DomainEntity) (field : string)
    (acting : option AccountEntity) : bool :=
  if bool_decide (field = "managers") then
    match acting with
    | Some a => administrator a || isManager a d
    | None => false
    end
  else true.

(** Modelled from the spec: [setDomainField] of [@Entities/DomainEntity]
    (section 4.2: each recognised field has a validator; an unknown field
    name or an invalid value leaves the change-set as it was; a valid
    value is written into the change-set under the field's name; the
    acting account is consulted for the manager list). *)
Definition setDomainField (tok : option AuthToken) (d : DomainEntity) (field : string)
    (val : JValue) (acting : option AccountEntity) (updated : VKeyedCollection)
    : VKeyedCollection :=
  if validate field val && mayset tok d field acting
  then <[field := val]> updated
  else updated.

(** Modelled from the spec: [Accounts.isAdmin] of [@Entities/Accounts]. *)
Definition isAdmin (a : AccountEntity) : bool := administrator a.

(** Modelled from the spec: [buildDomainInfoV1] of [@Route-Tools/Util]
    (section 4.4: a public snapshot, without the API key). *)
Definition buildDomainInfoV1 (d : DomainEntity) : VKeyedCollection :=
  <["domainId" := JStr (domainId d)]> (delete "apiKey" (domainFields d)).

Definition collaborators : Collaborators :=
  Build_Collaborators checkAccessToEntity setDomainField isAdmin buildDomainInfoV1.
End Reference.

(** ** Notions used to state what the handlers do *)

(** The state after the calls [L] were made, in that order. *)
Definition addCalls (L : list Call) (s : State) : State :=
  {| store := store s; vRestResp := vRestResp s; clock := clock s; calls := calls s ++ L |}.

(** Every field name the update handler can hand to the engine. *)
Definition allowedFields : list string :=
  flatFields ++ [ "num_users"; "num_anon_users" ] ++ metaFields.

(** [c] is a call of the engine for one of [fields]. *)
Definition engineCallIn (fields : list string) (c : Call) : Prop :=
  match c with
  | Call_setDomainField f _ => f ∈ fields
  | _ => False
  end.

(** The write discipline section 4.2 of the specification gives the field
    update engine: a call for field [f] touches no other entry of the
    change-set. *)
Definition EngineWritesOwnField (C : Collaborators) : Prop :=
  ∀ tok d f v a (u : VKeyedCollection) k,
    k ≠ f → setDomainField tok d f v a u !! k = u !! k.

(** The state after [Domains.updateEntityFields d updated]. *)
Definition committed (d : DomainEntity) (updated : VKeyedCollection) (s : State) : State :=
  setStore (λ st, {| domains := alter (Domains.mergeFields updated) (domainId d) (domains st);
                     places := places st |})
           (addCall (Call_updateEntityFields (domainId d) updated) s).

Section Notions.
Context `{C : Collaborators}.

(** A run that only calls the engine, and only for [fields]: the state is
    extended by those calls, and when the engine keeps to its own entry the
    change-set agrees with the one it started from outside [fields]. *)
Definition engineRun (fields : list string) (u : VKeyedCollection) (s : State)
    (r : Completion VKeyedCollection * State) : Prop :=
  ∃ L, r.2 = addCalls L s ∧ Forall (engineCallIn fields) L ∧
       ∀ u', r.1 = Normal u' → EngineWritesOwnField C →
             ∀ k, k ∉ fields → u' !! k = u !! k.

(** How the part of the handler that follows the payload test can end,
    started in state [s] with change-set [u0]: either an exception after
    some engine calls and nothing else, or those calls followed by one
    commit that carries the clock's reading. *)
Definition putOutcome (d : DomainEntity) (u0 : VKeyedCollection) (s : State)
    (r : Completion unit * State) : Prop :=
  ∃ L u, Forall (engineCallIn allowedFields) L ∧
    (EngineWritesOwnField C → ∀ k, k ∉ allowedFields → u !! k = u0 !! k) ∧
    ((∃ e, r = (Throw e, addCalls L s)) ∨
     r = (Normal (),
          committed d (<["timeOfLastHeartbeat" := JDate (clock s)]> u) (addCalls L s))).

(** The change-set after the engine was called for each pair in turn. *)
Definition applyPairs (req : Request) (d : DomainEntity) (pairs : list (string * JValue))
    (u : VKeyedCollection) : VKeyedCollection :=
  foldl (λ u p, setDomainField (vAuthToken req) d p.1 p.2 (vAuthAccount req) u) u pairs.
End Notions.

(** The handler ran to its end, reported the failure [msg], and did nothing
    else: the store is as it was and the only collaborator called is
    [next]. *)
Definition respondsFailure (msg : string) (s : State) (r : Completion unit * State) : Prop :=
  r.1 = Normal () ∧
  success (vRestResp r.2) = false ∧
  message (vRestResp r.2) = Some msg ∧
  store r.2 = store s ∧
  calls r.2 = calls s ++ [Call_next].

(** The value the store holds for field [f] of the domain [id]. *)
Definition storedField (st : Store) (id f : string) : option JValue :=
  domains st !! id ≫= λ e, domainFields e !! f.

(** Is the call a commit to the Domains store? *)
Definition isCommit (c : Call) : bool :=
  match c with Call_updateEntityFields _ _ => true | _ => false end.

(** Is the caller's resolved account an administrator?  False when no
    account was resolved. *)
Definition callerIsAdmin `{C : Collaborators} (req : Request) : bool :=
  match vAuthAccount req with
  | Some account => isAdmin account
  | None => false
  end.

(** ** Concrete requests *)
Module Scenario.
Definition theDomain : DomainEntity :=
  {| domainId := "d-1";
     domainFields := <["timeOfLastHeartbeat" := JDate 5]>
                       (<["managers" := JArr [JStr "acct-sponsor"]]>
                          {[ "capacity" := JNum 4 ]}) |}.

Definition domainToken : AuthToken :=
  {| token := "tok-domain"; identity := Some (DomainIdentity "d-1") |}.

Definition visitor : AccountEntity := {| accountId := "acct-visitor"; administrator := false |}.
Definition admin : AccountEntity := {| accountId := "acct-admin"; administrator := true |}.

Definition visitorToken : AuthToken :=
  {| token := "tok-visitor"; identity := Some (AccountIdentity visitor) |}.

Definition theStore : Store :=
  {| domains := {[ "d-1" := theDomain ]};
     places := [ {| placeId := "p-1"; placeDomainId := "d-1" |};
                 {| placeId := "p-2"; placeDomainId := "d-2" |};
                 {| placeId := "p-3"; placeDomainId := "d-1" |};
                 {| placeId := "p-4"; placeDomainId := "d-1" |} ] |}.

(** The state a request meets: a fresh response, the clock at 100. *)
Definition start : State :=
  {| store := theStore; vRestResp := newRESTResponse; clock := 100; calls := [] |}.

Definition putBy (tok : AuthToken) (acct : option AccountEntity) (payload : JValue) : Request :=
  {| vDomain := Some theDomain; vDomainError := None; vAuthToken := Some tok;
     vAuthAccount := acct; body := JObj {[ "domain" := payload ]} |}.

Definition deleteBy (acct : option AccountEntity) (d : option DomainEntity) : Request :=
  {| vDomain := d; vDomainError := None; vAuthToken := Some domainToken;
     vAuthAccount := acct; body := JObj ∅ |}.

Definition unresolved (err : option string) : Request :=
  {| vDomain := None; vDomainError := err; vAuthToken := Some domainToken;
     vAuthAccount := None; body := JObj {[ "domain" := JObj {[ "capacity" := JNum 10 ]} ]} |}.
End Scenario.

(** The reply both handlers give when [domainFromParams] resolved no
    domain. *)
Definition domainNotResolved (req : Request) (s : State) (r : Completion unit * State) : Prop :=
  r.1 = Normal () ∧
  success (vRestResp r.2) = false ∧
  message (vRestResp r.2) = Some (default "Domain not found" (vDomainError req)) ∧
  HTTPStatus (vRestResp r.2) = Unauthorized ∧
  store r.2 = store s ∧
  calls r.2 = calls s ++ [Call_next].

(** *** The payload as a list of (field, value) pairs

    For a payload that is an object, what the handler passes to the engine
    can be read off the object: the allow-listed members it owns, in
    allow-list order. *)
Definition ownPairs (fields : list string) (m : VKeyedCollection) : list (string * JValue) :=
  omap (λ f, (λ v, (f, v)) <$> m !! f) fields.

(** The engine calls that pass the pairs on. *)
Definition pairCalls (pairs : list (string * JValue)) : list Call :=
  map (λ p, Call_setDomainField p.1 p.2) pairs.

(** Lines 78-81: the two counts read from the [heartbeat] member, when the
    object has one; reading them throws when that member is [null]. *)
Definition heartbeatPairs (m : VKeyedCollection) : Completion (list (string * JValue)) :=
  match m !! "heartbeat" with
  | None => Normal []
  | Some heartbeat =>
      match getProp heartbeat "num_users", getProp heartbeat "num_anon_users" with
      | Normal num_users, Normal num_anon_users =>
          Normal [ ("num_users", num_users); ("num_anon_users", num_anon_users) ]
      | Throw e, _ | _, Throw e => Throw e
      end
  end.

(** Lines 83-92, for a [meta] member that is absent, false or an object
    with no member named [hasOwnProperty]. *)
Definition metaPairs (m : VKeyedCollection) : option (list (string * JValue)) :=
  match m !! "meta" with
  | Some (JObj mm) =>
      if bool_decide (is_Some (mm !! "hasOwnProperty")) then None
      else Some (ownPairs metaFields mm)
  | Some meta => if truthy meta then None else Some []
  | None => Some []
  end.

(** A payload with a flat field and a [meta] object. *)
Module BothShapes.
(** [{domain: {version: "1.0", meta: {contact_info: "ops"}}}] *)
Definition payload : VKeyedCollection :=
  <["version" := JStr "1.0"]> {[ "meta" := JObj {[ "contact_info" := JStr "ops" ]} ]}.

Definition request : Request :=
  Scenario.putBy Scenario.domainToken None (JObj payload).

Definition result : Completion unit * State :=
  procPutDomains (C := Reference.collaborators) request Scenario.start.
End BothShapes.

(** The places left after removing, one by one, the places of [doomed]. *)
Definition withoutPlaces (doomed : list PlaceEntity) (ps : list PlaceEntity)
    : list PlaceEntity :=
  List.filter (λ q, negb (bool_decide (placeId q ∈ placeId <$> doomed))) ps.

(** The removal calls for the places of [doomed], in order. *)
Definition removalCalls (doomed : list PlaceEntity) : list Call :=
  (λ p, Call_removePlace (placeId p)) <$> doomed.

(** The heartbeat time the store holds for the domain [id]. *)
Definition lastHeartbeat (st : Store) (id : string) : option Z :=
  match storedField st id "timeOfLastHeartbeat" with
  | Some (JDate t) => Some t
  | _ => None
  end.

(** A heartbeat member that is [null]. *)
Module NullHeartbeat.
(** [{domain: {heartbeat: null}}], sent by the domain itself. *)
Definition request : Request :=
  Scenario.putBy Scenario.domainToken None (JObj {[ "heartbeat" := JNull ]}).
End NullHeartbeat.

(** ** Notions for the further properties *)

(** [L] is a run of engine calls, one for each name of [fs], in order. *)
Definition engineCallsFor (fs : list string) (L : list Call) : Prop :=
  Forall2 (λ f c, ∃ v, c = Call_setDomainField f v) fs L.

(** A run that extends the state by engine calls only, for names that
    appear in [fields] in the same order. *)
Definition orderedRun {A} (fields : list string) (s : State) (r : Completion A * State) : Prop :=
  ∃ L fs, r.2 = addCalls L s ∧ engineCallsFor fs L ∧ fs `sublist_of` fields.

(** The same, for the part of the update handler that ends in the commit. *)
Definition orderedOutcome (fields : list string) (d : DomainEntity) (s : State)
    (r : Completion unit * State) : Prop :=
  ∃ L fs, engineCallsFor fs L ∧ fs `sublist_of` fields ∧
    ((∃ e, r = (Throw e, addCalls L s)) ∨
     (∃ u, r = (Normal (),
                committed d (<["timeOfLastHeartbeat" := JDate (clock s)]> u) (addCalls L s)))).

(** The field names of the engine calls of a trace, in order. *)
Definition engineFields (L : list Call) : list string :=
  omap (λ c, match c with Call_setDomainField f _ => Some f | _ => None end) L.

(** Is the call a removal from either store? *)
Definition isRemoval (c : Call) : bool :=
  match c with Call_removeDomain _ | Call_removePlace _ => true | _ => false end.

(** The three ways a run of the update handler can end, with the engine
    calls [L] it made: an exception, a reported failure, or a commit for the
    resolved domain [d] that the caller may update. *)
Definition putShape `{C : Collaborators} (req : Request) (s : State)
    (r : Completion unit * State) : Prop :=
  ∃ L fs, engineCallsFor fs L ∧ fs `sublist_of` allowedFields ∧
    ((∃ e, r = (Throw e, addCalls L s)) ∨
     (L = [] ∧ ∃ msg, respondsFailure msg s r) ∨
     (∃ d u, vDomain req = Some d ∧
             checkAccessToEntity (vAuthToken req) d [DOMAIN; SPONSOR; ADMIN] = true ∧
             r = (Normal (),
                  addCall Call_next
                    (committed d (<["timeOfLastHeartbeat" := JDate (clock s)]> u)
                       (addCalls L s))))).

(** The store after a handler served the request, met with a fresh response,
    an empty trace and the clock at [now]. *)
Definition serve (h : Request → M unit) (now : Z) (req : Request) (st : Store) : Store :=
  store (h req {| store := st; vRestResp := newRESTResponse; clock := now; calls := [] |}).2.

(** The heartbeat time stored for the domain [id] after each of a sequence
    of update requests, each met by the clock reading paired with it. *)
Fixpoint heartbeats `{C : Collaborators} (id : string) (reqs : list (Z * Request))
    (st : Store) : list (option Z) :=
  match reqs with
  | [] => []
  | (now, req) :: rest =>
      let st' := serve procPutDomains now req st in
      lastHeartbeat st' id :: heartbeats id rest st'
  end.

(** [o1] is not after [o2], where both are known. *)
Definition notAfter (o1 o2 : option Z) : Prop :=
  ∀ a b, o1 = Some a → o2 = Some b → (a ≤ b)%Z.

(** The request with its body replaced by [{ domain: payload }]. *)
Definition withPayload (req : Request) (payload : JValue) : Request :=
  {| vDomain := vDomain req; vDomainError := vDomainError req;
     vAuthToken := vAuthToken req; vAuthAccount := vAuthAccount req;
     body := JObj {[ "domain" := payload ]} |}.

(** Two values the allow-list loop over [fields] cannot tell apart. *)
Definition sameOwn (fields : list string) (v v' : JValue) : Prop :=
  ∀ f, f ∈ fields → hasOwnProperty v f = hasOwnProperty v' f ∧ getProp v f = getProp v' f.

(** Two [meta] members the update handler cannot tell apart. *)
Definition sameMeta (c c' : Completion JValue) : Prop :=
  match c, c' with
  | Normal meta, Normal meta' =>
      truthy meta = truthy meta' ∧ (truthy meta = true → sameOwn metaFields meta meta')
  | Throw e, Throw e' => e = e'
  | _, _ => False
  end.

(** Requests of the domain itself that exercise the edges of the update
    handler. *)
Module Heartbeats.
(** [{capacity: 0, description: "", heartbeat: {num_users: 3}}]: a zero, an
    empty string, and a heartbeat without its second count. *)
Definition payload : VKeyedCollection :=
  <["capacity" := JNum 0]>
    (<["description" := JStr ""]>
       {[ "heartbeat" := JObj {[ "num_users" := JNum 3 ]} ]}).

Definition request : Request := Scenario.putBy Scenario.domainToken None (JObj payload).

(** [{capacity: 7, heartbeat: null}] *)
Definition broken : VKeyedCollection :=
  <["capacity" := JNum 7]> {[ "heartbeat" := JNull ]}.

Definition brokenRequest : Request :=
  Scenario.putBy Scenario.domainToken None (JObj broken).

(** [{hasOwnProperty: 1, capacity: 7}] *)
Definition shadowed : VKeyedCollection :=
  <["hasOwnProperty" := JNum 1]> {[ "capacity" := JNum 7 ]}.

Definition shadowedRequest : Request :=
  Scenario.putBy Scenario.domainToken None (JObj shadowed).

(** Four updates in a row: a heartbeat at 100, a broken one at 100, a
    visitor's at 150 and an empty heartbeat at 200. *)
Definition sequence : list (Z * Request) :=
  [ (100%Z, request);
    (100%Z, brokenRequest);
    (150%Z, Scenario.putBy Scenario.visitorToken (Some Scenario.visitor) (JObj payload));
    (200%Z, Scenario.putBy Scenario.domainToken None (JObj ∅)) ].
End Heartbeats.

(** ** Running the monad *)

Lemma run_bind {A B} (m : M A) (k : A → M B) (s : State) :
  (m ≫= k) s = match m s with
               | (Normal a, s') => k a s'
               | (Throw e, s') => (Throw e, s')
               end.
Proof. reflexivity. Qed.

Lemma run_bind_normal {A B} (m : M A) (k : A → M B) s a s' :
  m s = (Normal a, s') → (m ≫= k) s = k a s'.
Proof. intros E. rewrite run_bind, E. reflexivity. Qed.

Lemma run_bind_throw {A B} (m : M A) (k : A → M B) s e s' :
  m s = (Throw e, s') → (m ≫= k) s = (Throw e, s').
Proof. intros E. rewrite run_bind, E. reflexivity. Qed.

Lemma run_lift_bind {A B} (c : Completion A) (k : A → M B) s :
  (lift c ≫= k) s = match c with Normal a => k a s | Throw e => (Throw e, s) end.
Proof. destruct c; reflexivity. Qed.

Lemma run_modify_bind {B} (f : State → State) (k : unit → M B) s :
  (modify f ≫= k) s = k () (f s).
Proof. reflexivity. Qed.

Lemma run_gets_bind {A B} (f : State → A) (k : A → M B) s :
  (gets f ≫= k) s = k (f s) s.
Proof. reflexivity. Qed.

Lemma addCalls_nil s : addCalls [] s = s.
Proof. destruct s. unfold addCalls. simpl. by rewrite app_nil_r. Qed.

Lemma addCalls_app L1 L2 s : addCalls L2 (addCalls L1 s) = addCalls (L1 ++ L2) s.
Proof. unfold addCalls. simpl. by rewrite app_assoc. Qed.

Lemma addCall_addCalls c s : addCall c s = addCalls [c] s.
Proof. reflexivity. Qed.

(** ** What the allow-list loops can do *)

Section Footprint.
Context `{C : Collaborators}.

Lemma engineCallIn_mono F F' c : F ⊆ F' → engineCallIn F c → engineCallIn F' c.
Proof. intros HF. destruct c; simpl; auto. Qed.

Lemma engineRun_mono F F' u s r : F ⊆ F' → engineRun F u s r → engineRun F' u s r.
Proof.
  intros HF (L & Hs & HL & Hu). exists L. split; [done|]. split.
  - eapply Forall_impl; [exact HL|]. intros c. by apply engineCallIn_mono.
  - intros u' Hr HC k Hk. apply (Hu u' Hr HC). intros Hin. apply Hk, HF, Hin.
Qed.

Lemma engineRun_ret F u s : engineRun F u s (Normal u, s).
Proof.
  exists []. rewrite addCalls_nil. split; [done|]. split; [constructor|].
  intros u' [= <-]. done.
Qed.

Lemma engineRun_throw F u s e : engineRun F u s (Throw e, s).
Proof.
  exists []. rewrite addCalls_nil. split; [done|]. split; [constructor|].
  intros u' [=].
Qed.

Lemma engineRun_call F req d f v u s :
  f ∈ F → engineRun F u s (callSetDomainField req d f v u s).
Proof.
  intros Hf. exists [Call_setDomainField f v]. split; [reflexivity|]. split.
  - by constructor.
  - intros u' [= <-] HC k Hk. apply HC. intros ->. by apply Hk.
Qed.

Lemma engineRun_bind F u s (m : M VKeyedCollection) (k : VKeyedCollection → M VKeyedCollection) :
  engineRun F u s (m s) →
  (∀ u1 s1, engineRun F u1 s1 (k u1 s1)) →
  engineRun F u s ((m ≫= k) s).
Proof.
  intros (L1 & Hs1 & HL1 & Hu1) Hk. rewrite run_bind.
  destruct (m s) as [[u1|e] s1] eqn:E; simpl in *.
  - destruct (Hk u1 s1) as (L2 & Hs2 & HL2 & Hu2).
    exists (L1 ++ L2). split; [by rewrite Hs2, Hs1, addCalls_app|]. split.
    + by apply Forall_app.
    + intros u' Hr HC j Hj. rewrite (Hu2 u' Hr HC j Hj). by apply Hu1.
  - exists L1. split; [done|]. split; [done|]. intros u' [=].
Qed.

Lemma engineRun_lift_bind {A} F u s (c : Completion A) (k : A → M VKeyedCollection) :
  (∀ a, engineRun F u s (k a s)) → engineRun F u s ((lift c ≫= k) s).
Proof.
  intros Hk. rewrite run_lift_bind. destruct c; [apply Hk | apply engineRun_throw].
Qed.

Lemma engineRun_setIfOwn F req d v f u s :
  f ∈ F → engineRun F u s (setIfOwn req d v f u s).
Proof.
  intros Hf. unfold setIfOwn. apply engineRun_lift_bind. intros [|].
  - apply engineRun_lift_bind. intros val. by apply engineRun_call.
  - apply engineRun_ret.
Qed.

Lemma engineRun_for_of F req d v fields u s :
  fields ⊆ F → engineRun F u s (for_of fields (setIfOwn req d v) u s).
Proof.
  revert u s. induction fields as [|f fields IH]; intros u s HF; simpl.
  - apply engineRun_ret.
  - apply engineRun_bind.
    + apply engineRun_setIfOwn, HF. by left.
    + intros u1 s1. apply IH. intros x Hx. apply HF. by right.
Qed.
End Footprint.

(** ** The paths through [procPutDomains] *)

Lemma flatFields_allowed : flatFields ⊆ allowedFields.
Proof. intros x Hx. unfold allowedFields. apply elem_of_app. by left. Qed.

Lemma metaFields_allowed : metaFields ⊆ allowedFields.
Proof.
  intros x Hx. unfold allowedFields. apply elem_of_app. right.
  apply elem_of_app. by right.
Qed.

Lemma num_users_allowed : "num_users" ∈ allowedFields.
Proof. unfold allowedFields. apply elem_of_app. right. apply elem_of_app. left. by left. Qed.

Lemma num_anon_users_allowed : "num_anon_users" ∈ allowedFields.
Proof.
  unfold allowedFields. apply elem_of_app. right. apply elem_of_app. left.
  right. by left.
Qed.

Section PutPaths.
Context `{C : Collaborators}.

Lemma putOutcome_bind d u s (m : M VKeyedCollection) (k : VKeyedCollection → M unit) :
  engineRun allowedFields u s (m s) →
  (∀ u1 s1, putOutcome d u1 s1 (k u1 s1)) →
  putOutcome d u s ((m ≫= k) s).
Proof.
  intros (L1 & Hs1 & HL1 & Hu1) Hk. rewrite run_bind.
  destruct (m s) as [[u1|e] s1] eqn:E; simpl in *; subst s1.
  - destruct (Hk u1 (addCalls L1 s)) as (L2 & u2 & HL2 & Hu2 & Hr).
    exists (L1 ++ L2), u2. split; [by apply Forall_app|]. split.
    + intros HC j Hj. rewrite (Hu2 HC j Hj). by apply Hu1.
    + rewrite addCalls_app in Hr. exact Hr.
  - exists L1, u. split; [done|]. split; [done|]. left. by exists e.
Qed.

Lemma putOutcome_lift_bind {A} d u s (c : Completion A) (k : A → M unit) :
  (∀ a, putOutcome d u s (k a s)) → putOutcome d u s ((lift c ≫= k) s).
Proof.
  intros Hk. rewrite run_lift_bind. destruct c as [a|e]; [apply Hk|].
  exists [], u. split; [constructor|]. split; [done|]. left. exists e.
  by rewrite addCalls_nil.
Qed.

Lemma putOutcome_commit d u s :
  putOutcome d u s
    ((now ← newDate;
      Domains.updateEntityFields d (<["timeOfLastHeartbeat" := now]> u)) s).
Proof.
  exists [], u. split; [constructor|]. split; [done|]. right.
  by rewrite addCalls_nil.
Qed.

(** An update that passed the domain, permission and payload tests. *)
Lemma put_accepted req d v s :
  vDomain req = Some d →
  checkAccessToEntity (vAuthToken req) d [DOMAIN; SPONSOR; ADMIN] = true →
  getProp (body req) "domain" = Normal v →
  truthy v = true →
  ∃ L u, Forall (engineCallIn allowedFields) L ∧
    (EngineWritesOwnField C → ∀ k, k ∉ allowedFields → u !! k = None) ∧
    ((∃ e, procPutDomains req s = (Throw e, addCalls L s)) ∨
     procPutDomains req s =
       (Normal (),
        addCall Call_next
          (committed d (<["timeOfLastHeartbeat" := JDate (clock s)]> u) (addCalls L s)))).
Proof.
  intros Hd Hacc Hv Ht.
  assert (putOutcome d ∅ s
    ((updated ← for_of flatFields (setIfOwn req d v) ∅;
      hasHeartbeat ← lift (hasOwnProperty v "heartbeat");
      updated ←
        (if hasHeartbeat : bool then
           heartbeat ← lift (getProp v "heartbeat");
           num_users ← lift (getProp heartbeat "num_users");
           updated ← callSetDomainField req d "num_users" num_users updated;
           heartbeat ← lift (getProp v "heartbeat");
           num_anon_users ← lift (getProp heartbeat "num_anon_users");
           callSetDomainField req d "num_anon_users" num_anon_users updated
         else mret updated);
      meta ← lift (getProp v "meta");
      updated ←
        (if truthy meta then for_of metaFields (setIfOwn req d meta) updated
         else mret updated);
      now ← newDate;
      Domains.updateEntityFields d (<["timeOfLastHeartbeat" := now]> updated)) s))
    as (L & u & HL & Hu & Hr).
  { apply putOutcome_bind; [apply engineRun_for_of, flatFields_allowed|].
    intros u1 s1. apply putOutcome_lift_bind. intros hasHeartbeat.
    apply putOutcome_bind.
    - destruct hasHeartbeat; [|apply engineRun_ret].
      apply engineRun_lift_bind. intros heartbeat.
      apply engineRun_lift_bind. intros num_users.
      apply engineRun_bind; [apply engineRun_call, num_users_allowed|].
      intros u2 s2. apply engineRun_lift_bind. intros heartbeat'.
      apply engineRun_lift_bind. intros num_anon_users.
      apply engineRun_call, num_anon_users_allowed.
    - intros u2 s2. apply putOutcome_lift_bind. intros meta.
      apply putOutcome_bind; [|intros u3 s3; apply putOutcome_commit].
      destruct (truthy meta); [apply engineRun_for_of, metaFields_allowed|].
      apply engineRun_ret. }
  exists L, u. split; [done|]. split.
  { intros HC k Hk. rewrite (Hu HC k Hk). apply lookup_empty. }
  unfold procPutDomains. rewrite Hd, Hacc, Hv.
  rewrite run_bind, run_lift_bind, Ht.
  destruct Hr as [[e Hr]|Hr]; rewrite Hr; [left; by exists e | by right].
Qed.

Lemma put_unresolved req :
  vDomain req = None →
  procPutDomains req =
    ((RESTResponse.respondFailure (default "Domain not found" (vDomainError req));;
      RESTResponse.setHTTPStatus Unauthorized);; next).
Proof. intros Hd. unfold procPutDomains. by rewrite Hd. Qed.

Lemma put_denied req d :
  vDomain req = Some d →
  checkAccessToEntity (vAuthToken req) d [DOMAIN; SPONSOR; ADMIN] = false →
  procPutDomains req = (RESTResponse.respondFailure "Unauthorized";; next).
Proof. intros Hd Hacc. unfold procPutDomains. by rewrite Hd, Hacc. Qed.

Lemma put_no_payload req d v s :
  vDomain req = Some d →
  checkAccessToEntity (vAuthToken req) d [DOMAIN; SPONSOR; ADMIN] = true →
  getProp (body req) "domain" = Normal v →
  truthy v = false →
  procPutDomains req s = (RESTResponse.respondFailure "badly formed data";; next) s.
Proof.
  intros Hd Hacc Hv Ht. unfold procPutDomains. rewrite Hd, Hacc, Hv.
  rewrite run_bind, run_lift_bind, Ht. reflexivity.
Qed.

Lemma put_no_body req d e s :
  vDomain req = Some d →
  checkAccessToEntity (vAuthToken req) d [DOMAIN; SPONSOR; ADMIN] = true →
  getProp (body req) "domain" = Throw e →
  procPutDomains req s = (Throw e, s).
Proof.
  intros Hd Hacc Hv. unfold procPutDomains. rewrite Hd, Hacc, Hv.
  rewrite run_bind, run_lift_bind. reflexivity.
Qed.
End PutPaths.

(** ** Outcomes *)

Lemma respondsFailure_run msg s :
  respondsFailure msg s ((RESTResponse.respondFailure msg;; next) s).
Proof. by repeat split. Qed.

(** ** Update: the permission gate *)

(** C1. An update of a resolved Domain by a caller whose credential holds
    none of the roles DOMAIN, SPONSOR, ADMIN on it answers the failure
    "Unauthorized" and commits nothing: the store (every field of the
    Domain, [timeOfLastHeartbeat] included) is unchanged and no collaborator
    other than [next] is called. *)
Theorem put_unauthorized_no_commit `{C : Collaborators} (req : Request) (d : DomainEntity)
    (s : State) :
  vDomain req = Some d →
  checkAccessToEntity (vAuthToken req) d [DOMAIN; SPONSOR; ADMIN] = false →
  respondsFailure "Unauthorized" s (procPutDomains req s) ∧
  ∀ id f, storedField (store (procPutDomains req s).2) id f = storedField (store s) id f.
Proof.
  intros Hd Hacc. rewrite (put_denied req d Hd Hacc). split.
  - apply respondsFailure_run.
  - reflexivity.
Qed.

Lemma put_unauthorized_no_commit_witness :
  let req := Scenario.putBy Scenario.visitorToken (Some Scenario.visitor)
               (JObj {[ "capacity" := JNum 10 ]}) in
  let r := procPutDomains (C := Reference.collaborators) req Scenario.start in
  respondsFailure "Unauthorized" Scenario.start r ∧
  ∀ id f, storedField (store r.2) id f = storedField (store Scenario.start) id f.
Proof.
  apply (put_unauthorized_no_commit (C := Reference.collaborators)
           (Scenario.putBy Scenario.visitorToken (Some Scenario.visitor)
              (JObj {[ "capacity" := JNum 10 ]}))
           Scenario.theDomain Scenario.start).
  - reflexivity.
  - vm_compute. reflexivity.
Defined.

(** ** Unresolved domains *)

(** C9. For the read and for the update handler alike, when the target
    Domain was not resolved the response is a failure that carries the
    resolution error (or "Domain not found" when there is none) and the
    HTTP status is Unauthorized, whatever the cause of the failure. *)
Theorem unresolved_domain_is_unauthorized `{C : Collaborators} (req : Request) (s : State) :
  vDomain req = None →
  domainNotResolved req s (procGetDomainsDomainid req s) ∧
  domainNotResolved req s (procPutDomains req s).
Proof.
  intros Hd. split.
  - unfold procGetDomainsDomainid. rewrite Hd. by repeat split.
  - rewrite (put_unresolved req Hd). by repeat split.
Qed.

Lemma unresolved_domain_is_unauthorized_witness :
  let req := Scenario.unresolved (Some "Forbidden") in
  domainNotResolved req Scenario.start
    (procGetDomainsDomainid (C := Reference.collaborators) req Scenario.start) ∧
  domainNotResolved req Scenario.start
    (procPutDomains (C := Reference.collaborators) req Scenario.start).
Proof.
  apply (unresolved_domain_is_unauthorized (C := Reference.collaborators)
           (Scenario.unresolved (Some "Forbidden")) Scenario.start).
  reflexivity.
Defined.

(** ** Delete *)

Section DeletePaths.
Context `{C : Collaborators}.

Lemma delete_not_admin req :
  callerIsAdmin req = false →
  procDeleteDomains req = (RESTResponse.respondFailure "Not authorized";; next).
Proof.
  unfold callerIsAdmin, procDeleteDomains. intros H.
  destruct (vAuthAccount req) as [account|]; [|done]. by rewrite H.
Qed.

Lemma delete_no_target req :
  callerIsAdmin req = true → vDomain req = None →
  procDeleteDomains req =
    (RESTResponse.respondFailure "Target domain does not exist";; next).
Proof.
  unfold callerIsAdmin, procDeleteDomains. intros H Hd.
  destruct (vAuthAccount req) as [account|]; [|done]. by rewrite H, Hd.
Qed.
End DeletePaths.

(** C7. Delete gets past its gate only for a caller whose resolved Account
    is an administrator.  A caller with no resolved Account, or with one
    that is not an administrator, is answered "Not authorized" and nothing
    else happens, whatever credential or role it holds on the Domain; an
    administrator naming a Domain that did not resolve is answered "Target
    domain does not exist" and nothing else happens; and a removal is
    issued only on behalf of an administrator. *)
Theorem delete_requires_admin `{C : Collaborators} (req : Request) (s : State) :
  (callerIsAdmin req = false →
     respondsFailure "Not authorized" s (procDeleteDomains req s)) ∧
  (callerIsAdmin req = true → vDomain req = None →
     respondsFailure "Target domain does not exist" s (procDeleteDomains req s)) ∧
  (success (vRestResp (procDeleteDomains req s).2) = true → callerIsAdmin req = true) ∧
  (∀ c, c ∈ calls (procDeleteDomains req s).2 → c ∉ calls s → c ≠ Call_next →
        callerIsAdmin req = true).
Proof.
  split; [|split; [|split]].
  - intros H. rewrite (delete_not_admin req H). apply respondsFailure_run.
  - intros H Hd. rewrite (delete_no_target req H Hd). apply respondsFailure_run.
  - destruct (callerIsAdmin req) eqn:H; [done|].
    rewrite (delete_not_admin req H). simpl. discriminate.
  - intros c Hc Hold Hnext. destruct (callerIsAdmin req) eqn:H; [done|].
    rewrite (delete_not_admin req H) in Hc. simpl in Hc.
    apply elem_of_app in Hc as [Hc|Hc]; [done|].
    apply list_elem_of_singleton in Hc. done.
Qed.

Lemma delete_requires_admin_witness :
  respondsFailure "Not authorized" Scenario.start
    (procDeleteDomains (C := Reference.collaborators)
       (Scenario.deleteBy (Some Scenario.visitor) (Some Scenario.theDomain)) Scenario.start) ∧
  respondsFailure "Target domain does not exist" Scenario.start
    (procDeleteDomains (C := Reference.collaborators)
       (Scenario.deleteBy (Some Scenario.admin) None) Scenario.start).
Proof.
  split.
  - apply (delete_requires_admin (C := Reference.collaborators)
             (Scenario.deleteBy (Some Scenario.visitor) (Some Scenario.theDomain))
             Scenario.start).
    reflexivity.
  - apply (delete_requires_admin (C := Reference.collaborators)
             (Scenario.deleteBy (Some Scenario.admin) None) Scenario.start);
      reflexivity.
Defined.

(** C10. In delete the administrator test comes before the test that the
    Domain exists: a caller whose resolved Account is absent or not an
    administrator is answered "Not authorized" whether or not the target
    resolves, so two such requests are answered identically and neither has
    a side effect. *)
Theorem delete_denial_hides_existence `{C : Collaborators} (req req' : Request) (s : State) :
  callerIsAdmin req = false →
  callerIsAdmin req' = false →
  procDeleteDomains req s = procDeleteDomains req' s ∧
  respondsFailure "Not authorized" s (procDeleteDomains req s).
Proof.
  intros H H'. rewrite (delete_not_admin req H), (delete_not_admin req' H').
  split; [reflexivity | apply respondsFailure_run].
Qed.

Lemma delete_denial_hides_existence_witness :
  let existing := Scenario.deleteBy (Some Scenario.visitor) (Some Scenario.theDomain) in
  let missing := Scenario.deleteBy (Some Scenario.visitor) None in
  procDeleteDomains (C := Reference.collaborators) existing Scenario.start =
    procDeleteDomains (C := Reference.collaborators) missing Scenario.start ∧
  respondsFailure "Not authorized" Scenario.start
    (procDeleteDomains (C := Reference.collaborators) existing Scenario.start).
Proof.
  apply (delete_denial_hides_existence (C := Reference.collaborators)
           (Scenario.deleteBy (Some Scenario.visitor) (Some Scenario.theDomain))
           (Scenario.deleteBy (Some Scenario.visitor) None) Scenario.start);
    reflexivity.
Defined.

(** ** Update: the payload test *)

(** C3, as the code has it.  For an authorized caller, when the body's
    [domain] value is missing or is any other value JavaScript counts as
    false, the handler answers "badly formed data" and commits nothing;
    [timeOfLastHeartbeat] in particular stays as it was. *)
Theorem put_missing_payload_rejected `{C : Collaborators} (req : Request) (d : DomainEntity)
    (v : JValue) (s : State) :
  vDomain req = Some d →
  checkAccessToEntity (vAuthToken req) d [DOMAIN; SPONSOR; ADMIN] = true →
  getProp (body req) "domain" = Normal v →
  truthy v = false →
  respondsFailure "badly formed data" s (procPutDomains req s) ∧
  storedField (store (procPutDomains req s).2) (domainId d) "timeOfLastHeartbeat" =
    storedField (store s) (domainId d) "timeOfLastHeartbeat".
Proof.
  intros Hd Hacc Hv Ht. rewrite (put_no_payload req d v s Hd Hacc Hv Ht). split.
  - apply respondsFailure_run.
  - reflexivity.
Qed.

(** The body [{}]: no [domain] member at all. *)
Lemma put_missing_payload_rejected_witness :
  let req := {| vDomain := Some Scenario.theDomain; vDomainError := None;
                vAuthToken := Some Scenario.domainToken; vAuthAccount := None;
                body := JObj ∅ |} in
  let r := procPutDomains (C := Reference.collaborators) req Scenario.start in
  respondsFailure "badly formed data" Scenario.start r ∧
  storedField (store r.2) "d-1" "timeOfLastHeartbeat" =
    storedField (store Scenario.start) "d-1" "timeOfLastHeartbeat".
Proof.
  apply (put_missing_payload_rejected (C := Reference.collaborators)
           {| vDomain := Some Scenario.theDomain; vDomainError := None;
              vAuthToken := Some Scenario.domainToken; vAuthAccount := None;
              body := JObj ∅ |}
           Scenario.theDomain JUndefined Scenario.start);
    reflexivity.
Defined.

(** C3, as stated, fails on the empty object.  The body [{domain: {}}] sent
    by the domain itself passes [if (valuesToSet)], since an object is
    never false: no failure is reported, and a change-set holding only
    [timeOfLastHeartbeat] is committed, which moves the stored heartbeat
    from 5 to the clock's 100. *)
Lemma put_empty_object_is_committed :
  let req := Scenario.putBy Scenario.domainToken None (JObj ∅) in
  let r := procPutDomains (C := Reference.collaborators) req Scenario.start in
  checkAccessToEntity (Collaborators := Reference.collaborators)
    (vAuthToken req) Scenario.theDomain [DOMAIN; SPONSOR; ADMIN] = true ∧
  getProp (body req) "domain" = Normal (JObj ∅) ∧
  ¬ respondsFailure "badly formed data" Scenario.start r ∧
  success (vRestResp r.2) = true ∧
  message (vRestResp r.2) = None ∧
  calls r.2 = [ Call_updateEntityFields "d-1" {[ "timeOfLastHeartbeat" := JDate 100 ]};
                Call_next ] ∧
  storedField (store Scenario.start) "d-1" "timeOfLastHeartbeat" = Some (JDate 5) ∧
  storedField (store r.2) "d-1" "timeOfLastHeartbeat" = Some (JDate 100).
Proof.
  repeat split; try (vm_compute; reflexivity).
  intros (_ & Hfail & _). vm_compute in Hfail. discriminate.
Qed.

(** ** Update: the order of the tests *)

(** C6, as the code has it.  The update handler tests, in this order, that
    the Domain resolved, that the caller is permitted, and that a payload is
    present.  A request for an unresolved Domain is answered as such
    whatever else it holds; a caller that fails the permission gate is
    answered "Unauthorized" whether or not it sent a payload (the body is
    not even read); a permitted caller whose payload is missing is answered
    "badly formed data"; and, for a resolved Domain, "badly formed data" is
    the answer to no one else: whoever gets it is permitted and sent no
    payload. *)
Theorem put_gate_order `{C : Collaborators} (req : Request) (s : State) :
  (vDomain req = None → domainNotResolved req s (procPutDomains req s)) ∧
  (∀ d, vDomain req = Some d →
        checkAccessToEntity (vAuthToken req) d [DOMAIN; SPONSOR; ADMIN] = false →
        respondsFailure "Unauthorized" s (procPutDomains req s)) ∧
  (∀ d v, vDomain req = Some d →
          checkAccessToEntity (vAuthToken req) d [DOMAIN; SPONSOR; ADMIN] = true →
          getProp (body req) "domain" = Normal v → truthy v = false →
          respondsFailure "badly formed data" s (procPutDomains req s)) ∧
  (∀ d, vDomain req = Some d →
        message (vRestResp (procPutDomains req s).2) = Some "badly formed data" →
        message (vRestResp s) ≠ Some "badly formed data" →
        checkAccessToEntity (vAuthToken req) d [DOMAIN; SPONSOR; ADMIN] = true ∧
        ∃ v, getProp (body req) "domain" = Normal v ∧ truthy v = false).
Proof.
  split; [|split; [|split]].
  - intros Hd. rewrite (put_unresolved req Hd). by repeat split.
  - intros d Hd Hacc. rewrite (put_denied req d Hd Hacc). apply respondsFailure_run.
  - intros d v Hd Hacc Hv Ht. rewrite (put_no_payload req d v s Hd Hacc Hv Ht).
    apply respondsFailure_run.
  - intros d Hd Hmsg Hold.
    destruct (checkAccessToEntity (vAuthToken req) d [DOMAIN; SPONSOR; ADMIN]) eqn:Hacc.
    2: { rewrite (put_denied req d Hd Hacc) in Hmsg. simpl in Hmsg. discriminate. }
    split; [done|].
    destruct (getProp (body req) "domain") as [v|e] eqn:Hv.
    2: { rewrite (put_no_body req d e s Hd Hacc Hv) in Hmsg. done. }
    destruct (truthy v) eqn:Ht; [|by exists v].
    destruct (put_accepted req d v s Hd Hacc Hv Ht) as (L & u & _ & _ & [[e Hr]|Hr]);
      rewrite Hr in Hmsg; done.
Qed.

(** A visitor that sends no payload, and one whose body is [null]. *)
Lemma put_gate_order_witness :
  respondsFailure "Unauthorized" Scenario.start
    (procPutDomains (C := Reference.collaborators)
       {| vDomain := Some Scenario.theDomain; vDomainError := None;
          vAuthToken := Some Scenario.visitorToken;
          vAuthAccount := Some Scenario.visitor; body := JNull |}
       Scenario.start) ∧
  respondsFailure "badly formed data" Scenario.start
    (procPutDomains (C := Reference.collaborators)
       (Scenario.putBy Scenario.domainToken None JNull) Scenario.start).
Proof.
  split.
  - apply (put_gate_order (C := Reference.collaborators)
             {| vDomain := Some Scenario.theDomain; vDomainError := None;
                vAuthToken := Some Scenario.visitorToken;
                vAuthAccount := Some Scenario.visitor; body := JNull |}
             Scenario.start) with (d := Scenario.theDomain);
      reflexivity.
  - apply (put_gate_order (C := Reference.collaborators)
             (Scenario.putBy Scenario.domainToken None JNull) Scenario.start)
      with (d := Scenario.theDomain) (v := JNull);
      reflexivity.
Defined.

(** C6, as stated, fails: a visitor (neither the domain, a sponsor nor an
    administrator) that sends a body with no [domain] member is stopped at
    the permission gate and answered "Unauthorized", not "badly formed
    data". *)
Lemma put_denied_before_payload_test :
  let req := {| vDomain := Some Scenario.theDomain; vDomainError := None;
                vAuthToken := Some Scenario.visitorToken;
                vAuthAccount := Some Scenario.visitor; body := JObj ∅ |} in
  let r := procPutDomains (C := Reference.collaborators) req Scenario.start in
  checkAccessToEntity (Collaborators := Reference.collaborators)
    (vAuthToken req) Scenario.theDomain [DOMAIN; SPONSOR; ADMIN] = false ∧
  getProp (body req) "domain" = Normal JUndefined ∧
  truthy JUndefined = false ∧
  message (vRestResp r.2) = Some "Unauthorized" ∧
  ¬ respondsFailure "badly formed data" Scenario.start r.
Proof.
  repeat split; try (vm_compute; reflexivity).
  intros (_ & _ & Hmsg & _). vm_compute in Hmsg. discriminate.
Qed.

(** ** Object payloads *)

Section ObjectPayload.
Context `{C : Collaborators}.

Lemma applyPairs_app req d p1 p2 u :
  applyPairs req d (p1 ++ p2) u = applyPairs req d p2 (applyPairs req d p1 u).
Proof. apply foldl_app. Qed.

Lemma for_of_obj req d m fields u s :
  m !! "hasOwnProperty" = None →
  for_of fields (setIfOwn req d (JObj m)) u s =
    (Normal (applyPairs req d (ownPairs fields m) u),
     addCalls (pairCalls (ownPairs fields m)) s).
Proof.
  intros Hm. revert u s. induction fields as [|f fields IH]; intros u s.
  - simpl. by rewrite addCalls_nil.
  - cbn [for_of]. rewrite run_bind. unfold setIfOwn at 1.
    rewrite run_lift_bind. cbn [hasOwnProperty]. rewrite Hm.
    rewrite bool_decide_eq_false_2 by (by intros [? ?]).
    unfold ownPairs. cbn [omap list_omap]. fold (ownPairs fields m).
    destruct (m !! f) as [v|] eqn:Hf.
    + rewrite bool_decide_eq_true_2 by eauto.
      rewrite run_lift_bind. cbn [getProp]. rewrite Hf. cbn [default].
      unfold callSetDomainField. rewrite run_modify_bind. cbn [mret M_ret].
      rewrite IH, addCall_addCalls, addCalls_app. reflexivity.
    + rewrite bool_decide_eq_false_2 by (by intros [? ?]).
      cbn. apply IH.
Qed.

Lemma run_call req d f v u s :
  callSetDomainField req d f v u s =
    (Normal (setDomainField (vAuthToken req) d f v (vAuthAccount req) u),
     addCall (Call_setDomainField f v) s).
Proof. reflexivity. Qed.

Lemma heartbeat_block req d m hp u s :
  heartbeatPairs m = Normal hp →
  (if bool_decide (is_Some (m !! "heartbeat")) then
     heartbeat ← lift (getProp (JObj m) "heartbeat");
     num_users ← lift (getProp heartbeat "num_users");
     updated ← callSetDomainField req d "num_users" num_users u;
     heartbeat ← lift (getProp (JObj m) "heartbeat");
     num_anon_users ← lift (getProp heartbeat "num_anon_users");
     callSetDomainField req d "num_anon_users" num_anon_users updated
   else mret u) s =
  (Normal (applyPairs req d hp u), addCalls (pairCalls hp) s).
Proof.
  unfold heartbeatPairs. intros Hhp. cbn [getProp].
  destruct (m !! "heartbeat") as [heartbeat|] eqn:Hb.
  - rewrite bool_decide_eq_true_2 by eauto. cbn [default from_option id].
    destruct (getProp heartbeat "num_users") as [num_users|e] eqn:Hu;
      [|destruct (getProp heartbeat "num_anon_users"); discriminate].
    destruct (getProp heartbeat "num_anon_users") as [num_anon_users|e] eqn:Ha;
      [|discriminate].
    injection Hhp as <-.
    rewrite run_lift_bind, run_lift_bind, Hu.
    rewrite run_bind, run_call, run_lift_bind, run_lift_bind, Ha, run_call.
    rewrite !addCall_addCalls, addCalls_app. reflexivity.
  - rewrite bool_decide_eq_false_2 by (by intros [? ?]).
    injection Hhp as <-. cbn. by rewrite addCalls_nil.
Qed.

Lemma meta_block req d m mp u s :
  metaPairs m = Some mp →
  (if truthy (default JUndefined (m !! "meta"))
   then for_of metaFields (setIfOwn req d (default JUndefined (m !! "meta"))) u
   else mret u) s =
  (Normal (applyPairs req d mp u), addCalls (pairCalls mp) s).
Proof.
  unfold metaPairs. intros Hmp.
  destruct (m !! "meta") as [meta|]; cbn [default from_option id].
  - destruct meta as [| |b|n|str|ms|l|mm]; cbn [truthy] in *;
      try match type of Hmp with
          | (if ?c then None else Some []) = Some _ => destruct c
          end;
      try discriminate;
      try (injection Hmp as <-; cbn; by rewrite addCalls_nil).
    destruct (mm !! "hasOwnProperty") eqn:E.
    + rewrite bool_decide_eq_true_2 in Hmp by eauto. discriminate.
    + rewrite bool_decide_eq_false_2 in Hmp by (by intros [? ?]).
      injection Hmp as <-. by apply for_of_obj.
  - injection Hmp as <-. cbn. by rewrite addCalls_nil.
Qed.

Lemma put_object_payload req d m hp mp s :
  vDomain req = Some d →
  checkAccessToEntity (vAuthToken req) d [DOMAIN; SPONSOR; ADMIN] = true →
  getProp (body req) "domain" = Normal (JObj m) →
  m !! "hasOwnProperty" = None →
  heartbeatPairs m = Normal hp →
  metaPairs m = Some mp →
  procPutDomains req s =
    (Normal (),
     addCall Call_next
       (committed d
          (<["timeOfLastHeartbeat" := JDate (clock s)]>
             (applyPairs req d (ownPairs flatFields m ++ hp ++ mp) ∅))
          (addCalls (pairCalls (ownPairs flatFields m ++ hp ++ mp)) s))).
Proof.
  intros Hd Hacc Hv Hm Hhp Hmp.
  unfold procPutDomains. rewrite Hd, Hacc, Hv.
  rewrite run_bind, run_lift_bind. cbn [truthy].
  rewrite run_bind, (for_of_obj _ _ _ _ _ _ Hm).
  rewrite run_lift_bind. cbn [hasOwnProperty]. rewrite Hm.
  rewrite bool_decide_eq_false_2 by (by intros [? ?]).
  rewrite run_bind, (heartbeat_block _ _ _ _ _ _ Hhp).
  rewrite run_lift_bind. cbn [getProp].
  rewrite run_bind, (meta_block _ _ _ _ _ _ Hmp).
  unfold newDate. rewrite run_gets_bind.
  rewrite !addCalls_app, !applyPairs_app. unfold pairCalls. rewrite !map_app.
  reflexivity.
Qed.
End ObjectPayload.

(** ** Update: the two payload shapes *)

(** C5, as stated, fails: for a payload with the flat field [version] and a
    [meta] object holding [contact_info], the engine is called for both in
    the same update, and both are stored. *)
Lemma put_flat_and_meta_both_applied :
  "version" ∈ flatFields ∧ "contact_info" ∈ metaFields ∧
  calls BothShapes.result.2 =
    [ Call_setDomainField "version" (JStr "1.0");
      Call_setDomainField "contact_info" (JStr "ops");
      Call_updateEntityFields "d-1"
        (<["timeOfLastHeartbeat" := JDate 100]>
           (<["contact_info" := JStr "ops"]> {[ "version" := JStr "1.0" ]}));
      Call_next ] ∧
  storedField (store BothShapes.result.2) "d-1" "version" = Some (JStr "1.0") ∧
  storedField (store BothShapes.result.2) "d-1" "contact_info" = Some (JStr "ops").
Proof.
  repeat split; try (vm_compute; reflexivity);
    apply list_elem_of_In; vm_compute; tauto.
Qed.

(** ** Update: fields outside the allow-lists *)






(** ** Delete: the cascade *)

Lemma filter_filter_place (P Q : PlaceEntity → bool) (ps : list PlaceEntity) :
  List.filter Q (List.filter P ps) = List.filter (λ q, P q && Q q) ps.
Proof.
  induction ps as [|p ps IH]; [done|]. simpl.
  destruct (P p); simpl; [destruct (Q p)|]; by rewrite IH.
Qed.

Lemma filter_ext_place (P Q : PlaceEntity → bool) (ps : list PlaceEntity) :
  (∀ q, P q = Q q) → List.filter P ps = List.filter Q ps.
Proof.
  intros H. induction ps as [|p ps IH]; [done|]. simpl. by rewrite H, IH.
Qed.

Lemma withoutPlaces_cons (p : PlaceEntity) (doomed ps : list PlaceEntity) :
  withoutPlaces doomed
    (List.filter (λ q, negb (bool_decide (placeId q = placeId p))) ps) =
  withoutPlaces (p :: doomed) ps.
Proof.
  unfold withoutPlaces. rewrite filter_filter_place. apply filter_ext_place.
  intros q. rewrite fmap_cons.
  destruct (decide (placeId q = placeId p)) as [Heq|Hne].
  - rewrite (bool_decide_eq_true_2 (placeId q = placeId p)) by done. simpl.
    symmetry. apply negb_false_iff, bool_decide_eq_true_2. rewrite Heq. by left.
  - rewrite (bool_decide_eq_false_2 (placeId q = placeId p)) by done. simpl.
    f_equal. apply bool_decide_ext. rewrite elem_of_cons. tauto.
Qed.

(** The loop [for await (const place of ..) { Places.removePlace(place) }]. *)
Lemma run_remove_places (doomed : list PlaceEntity) (s : State) :
  for_of doomed (λ place _, Places.removePlace place) () s =
    (Normal (),
     setStore (λ st, {| domains := domains st;
                        places := withoutPlaces doomed (places st) |})
              (addCalls (removalCalls doomed) s)).
Proof.
  revert s. induction doomed as [|p doomed IH]; intros s.
  - simpl. rewrite addCalls_nil. destruct s as [[ds ps] r t cs].
    unfold setStore, withoutPlaces. simpl. do 2 f_equal. f_equal.
    induction ps as [|q ps IHps]; [done|]. simpl. by rewrite <- IHps.
  - cbn [for_of]. rewrite run_bind.
    change (Places.removePlace p s) with
      (Normal (),
       setStore (λ st, {| domains := domains st;
                          places := List.filter
                                      (λ q, negb (bool_decide (placeId q = placeId p)))
                                      (places st) |})
                (addCall (Call_removePlace (placeId p)) s)).
    cbv beta iota. rewrite IH. unfold setStore. simpl. rewrite withoutPlaces_cons.
    unfold addCalls. simpl. by rewrite <- app_assoc.
Qed.

Lemma run_removeDomain (d : DomainEntity) (s : State) :
  Domains.removeDomain d s =
    (Normal (),
     setStore (λ st, {| domains := delete (domainId d) (domains st); places := places st |})
              (addCall (Call_removeDomain (domainId d)) s)).
Proof. reflexivity. Qed.

(** C8.  When an administrator deletes a Domain that resolved, the handler
    removes the Domain first and then asks for the removal of every Place
    whose [domainId] is the Domain's, in the order the store lists them and
    skipping none; afterwards the store holds neither the Domain nor any
    Place that refers to it. *)
Theorem delete_cascades_to_places `{C : Collaborators} (req : Request) (d : DomainEntity)
    (s : State) :
  callerIsAdmin req = true →
  vDomain req = Some d →
  let r := procDeleteDomains req s in
  let matching := List.filter (λ p, bool_decide (placeDomainId p = domainId d))
                    (places (store s)) in
  r.1 = Normal () ∧
  calls r.2 = calls s ++ Call_removeDomain (domainId d) :: removalCalls matching
                ++ [Call_next] ∧
  domains (store r.2) !! domainId d = None ∧
  (∀ p, p ∈ places (store r.2) → placeDomainId p ≠ domainId d) ∧
  (∀ p, p ∈ places (store s) → placeDomainId p = domainId d →
        Call_removePlace (placeId p) ∈ calls r.2) ∧
  vRestResp r.2 = vRestResp s.
Proof.
  intros Hadmin Hd r matching.
  assert (Hr : r = (Normal (),
              addCall Call_next
                (setStore (λ st, {| domains := domains st;
                                    places := withoutPlaces matching (places st) |})
                   (addCalls (removalCalls matching)
                      (setStore (λ st, {| domains := delete (domainId d) (domains st);
                                          places := places st |})
                         (addCall (Call_removeDomain (domainId d)) s)))))).
  { unfold r, procDeleteDomains, callerIsAdmin in *.
    destruct (vAuthAccount req) as [account|]; [|done]. rewrite Hadmin, Hd.
    rewrite run_bind, run_bind, run_removeDomain. cbv beta iota.
    unfold Places.enumerateAsync. rewrite run_gets_bind.
    rewrite run_remove_places. reflexivity. }
  rewrite Hr. simpl. split; [done|]. split.
  { rewrite <- !app_assoc. reflexivity. }
  split; [apply lookup_delete_eq|]. split; [|split; [|done]].
  - intros p Hp Hdom. unfold withoutPlaces in Hp.
    apply list_elem_of_In, filter_In in Hp as [Hp Hkeep].
    apply negb_true_iff, bool_decide_eq_false in Hkeep. apply Hkeep.
    apply list_elem_of_fmap. exists p. split; [done|].
    apply list_elem_of_In, filter_In. split; [done|]. by apply bool_decide_eq_true_2.
  - intros p Hp Hdom. apply elem_of_app. left. apply elem_of_app. right.
    unfold removalCalls.
    apply list_elem_of_fmap. exists p. split; [done|].
    apply list_elem_of_In, filter_In. split; [by apply list_elem_of_In|].
    by apply bool_decide_eq_true_2.
Qed.

(** An administrator deletes the domain ["d-1"], to which three of the four
    stored places belong. *)
Lemma delete_cascades_to_places_witness :
  let r := procDeleteDomains (C := Reference.collaborators)
             (Scenario.deleteBy (Some Scenario.admin) (Some Scenario.theDomain))
             Scenario.start in
  r.1 = Normal () ∧
  calls r.2 = [ Call_removeDomain "d-1"; Call_removePlace "p-1"; Call_removePlace "p-3";
                Call_removePlace "p-4"; Call_next ] ∧
  domains (store r.2) !! "d-1" = None ∧
  places (store r.2) = [ {| placeId := "p-2"; placeDomainId := "d-2" |} ].
Proof.
  destruct (delete_cascades_to_places (C := Reference.collaborators)
              (Scenario.deleteBy (Some Scenario.admin) (Some Scenario.theDomain))
              Scenario.theDomain Scenario.start eq_refl eq_refl)
    as (Hrun & Hcalls & Hdom & _).
  split; [exact Hrun|]. split; [exact Hcalls|]. split; [exact Hdom|].
  vm_compute. reflexivity.
Defined.

(** ** Update: the commit and the heartbeat *)

Section Heartbeat.
Context `{C : Collaborators}.

(** An update that passed the three tests and ran to its end made exactly
    one commit, after all its engine calls, and the change-set committed
    carries the clock's reading as [timeOfLastHeartbeat]. *)
Lemma put_completed_commits_once req d v s :
  vDomain req = Some d →
  checkAccessToEntity (vAuthToken req) d [DOMAIN; SPONSOR; ADMIN] = true →
  getProp (body req) "domain" = Normal v →
  truthy v = true →
  (procPutDomains req s).1 = Normal () →
  ∃ L updated,
    calls (procPutDomains req s).2 =
      calls s ++ L ++ [Call_updateEntityFields (domainId d) updated; Call_next] ∧
    List.filter isCommit L = [] ∧
    updated !! "timeOfLastHeartbeat" = Some (JDate (clock s)) ∧
    store (procPutDomains req s).2 =
      {| domains := alter (Domains.mergeFields updated) (domainId d) (domains (store s));
         places := places (store s) |}.
Proof.
  intros Hd Hacc Hv Ht Hok.
  destruct (put_accepted req d v s Hd Hacc Hv Ht) as (L & u & HL & _ & [[e Hr]|Hr]);
    rewrite Hr in *; [discriminate|].
  exists L, (<["timeOfLastHeartbeat" := JDate (clock s)]> u). simpl.
  split; [by rewrite <- !app_assoc|]. split; [|split; [apply lookup_insert_eq|done]].
  clear Hr Hok. induction HL as [|c L Hc HL IH]; [done|].
  destruct c; simpl in *; done.
Qed.

Lemma put_completed_stamps_clock req d v s :
  vDomain req = Some d →
  checkAccessToEntity (vAuthToken req) d [DOMAIN; SPONSOR; ADMIN] = true →
  getProp (body req) "domain" = Normal v →
  truthy v = true →
  (procPutDomains req s).1 = Normal () →
  is_Some (domains (store s) !! domainId d) →
  lastHeartbeat (store (procPutDomains req s).2) (domainId d) = Some (clock s).
Proof.
  intros Hd Hacc Hv Ht Hok [e He].
  destruct (put_completed_commits_once req d v s Hd Hacc Hv Ht Hok)
    as (L & updated & _ & _ & Htime & Hstore).
  unfold lastHeartbeat, storedField. rewrite Hstore. simpl.
  rewrite lookup_alter_eq, He. simpl.
  by rewrite (lookup_union_Some_l _ _ _ _ Htime).
Qed.

(** Two completed updates of the same stored domain, the second met by a
    clock that did not run backwards: the heartbeat the store holds after
    the second is not before the one it held after the first. *)
Lemma heartbeat_non_decreasing req1 req2 d v1 v2 s1 s2 t1 t2 :
  vDomain req1 = Some d → vDomain req2 = Some d →
  checkAccessToEntity (vAuthToken req1) d [DOMAIN; SPONSOR; ADMIN] = true →
  checkAccessToEntity (vAuthToken req2) d [DOMAIN; SPONSOR; ADMIN] = true →
  getProp (body req1) "domain" = Normal v1 → truthy v1 = true →
  getProp (body req2) "domain" = Normal v2 → truthy v2 = true →
  (procPutDomains req1 s1).1 = Normal () →
  (procPutDomains req2 s2).1 = Normal () →
  is_Some (domains (store s1) !! domainId d) →
  store s2 = store (procPutDomains req1 s1).2 →
  (clock s1 ≤ clock s2)%Z →
  lastHeartbeat (store (procPutDomains req1 s1).2) (domainId d) = Some t1 →
  lastHeartbeat (store (procPutDomains req2 s2).2) (domainId d) = Some t2 →
  (t1 ≤ t2)%Z.
Proof.
  intros Hd1 Hd2 Ha1 Ha2 Hv1 Ht1 Hv2 Ht2 Hok1 Hok2 Hin Hs2 Hclock H1 H2.
  rewrite (put_completed_stamps_clock req1 d v1 s1) in H1 by done.
  rewrite (put_completed_stamps_clock req2 d v2 s2) in H2; try done.
  - congruence.
  - rewrite Hs2.
    destruct (put_completed_commits_once req1 d v1 s1 Hd1 Ha1 Hv1 Ht1 Hok1)
      as (L & updated & _ & _ & _ & Hstore).
    rewrite Hstore. simpl. rewrite lookup_alter_eq.
    destruct Hin as [e ->]. by eexists.
Qed.
End Heartbeat.

(** C4.  The update [{domain: {heartbeat: null}}] from the domain itself
    passes the permission gate and the payload test, and then stops at
    [valuesToSet.heartbeat.num_users] with a [TypeError]: the handler
    neither commits a change-set nor calls [next], and the stored
    [timeOfLastHeartbeat] is not advanced. *)
Theorem put_null_heartbeat_throws :
  checkAccessToEntity (Collaborators := Reference.collaborators)
    (vAuthToken NullHeartbeat.request) Scenario.theDomain [DOMAIN; SPONSOR; ADMIN] = true ∧
  getProp (body NullHeartbeat.request) "domain" = Normal (JObj {[ "heartbeat" := JNull ]}) ∧
  truthy (JObj {[ "heartbeat" := JNull ]}) = true ∧
  procPutDomains (C := Reference.collaborators) NullHeartbeat.request Scenario.start =
    (Throw (TypeError "Cannot read properties of null"), Scenario.start) ∧
  List.filter isCommit
    (calls (procPutDomains (C := Reference.collaborators)
              NullHeartbeat.request Scenario.start).2) = [] ∧
  lastHeartbeat
    (store (procPutDomains (C := Reference.collaborators)
              NullHeartbeat.request Scenario.start).2) "d-1" = Some 5%Z.
Proof. repeat split; vm_compute; reflexivity. Qed.

(** * Further properties of the handlers *)

Lemma app_assoc3 {A} (a b c : list A) : (a ++ b) ++ c = a ++ b ++ c.
Proof. symmetry. apply app_assoc. Qed.

Lemma app_assoc4 {A} (a b c d : list A) : ((a ++ b) ++ c) ++ d = a ++ b ++ c ++ d.
Proof. by rewrite <- !app_assoc. Qed.

Lemma app_assoc5 {A} (a b c d e : list A) :
  (((a ++ b) ++ c) ++ d) ++ e = a ++ b ++ c ++ d ++ e.
Proof. by rewrite <- !app_assoc. Qed.

Section Ordered.
Context `{C : Collaborators}.

Lemma orderedRun_mono {A} F F' s (r : Completion A * State) :
  F `sublist_of` F' → orderedRun F s r → orderedRun F' s r.
Proof.
  intros HF (L & fs & Hs & HL & Hfs). exists L, fs. split; [done|]. split; [done|].
  by etrans.
Qed.

Lemma orderedRun_ret {A} (a : A) s : orderedRun [] s (Normal a, s).
Proof. exists [], []. rewrite addCalls_nil. by repeat split; constructor. Qed.

Lemma orderedRun_lift {A} (c : Completion A) s : orderedRun [] s (lift c s).
Proof. exists [], []. rewrite addCalls_nil. by repeat split; constructor. Qed.

Lemma orderedRun_call req d f v u s :
  orderedRun [f] s (callSetDomainField req d f v u s).
Proof.
  exists [Call_setDomainField f v], [f]. split; [reflexivity|]. split; [|done].
  constructor; [by exists v | constructor].
Qed.

Lemma orderedRun_bind {A B} F1 F2 s (m : M A) (k : A → M B) :
  orderedRun F1 s (m s) →
  (∀ a s1, orderedRun F2 s1 (k a s1)) →
  orderedRun (F1 ++ F2) s ((m ≫= k) s).
Proof.
  intros (L1 & fs1 & Hs1 & HL1 & Hfs1) Hk. rewrite run_bind.
  destruct (m s) as [[a|e] s1] eqn:E; simpl in *; subst s1.
  - destruct (Hk a (addCalls L1 s)) as (L2 & fs2 & Hs2 & HL2 & Hfs2).
    exists (L1 ++ L2), (fs1 ++ fs2). split; [by rewrite Hs2, addCalls_app|]. split.
    + by apply Forall2_app.
    + by apply sublist_app.
  - exists L1, fs1. split; [done|]. split; [done|]. by apply sublist_inserts_r.
Qed.

Lemma orderedRun_setIfOwn req d v f u s : orderedRun [f] s (setIfOwn req d v f u s).
Proof.
  unfold setIfOwn.
  apply (orderedRun_bind [] [f]); [apply orderedRun_lift|]. intros [|] s1.
  - apply (orderedRun_bind [] [f]); [apply orderedRun_lift|]. intros val s2.
    apply orderedRun_call.
  - apply (orderedRun_mono []); [apply sublist_nil_l | apply orderedRun_ret].
Qed.

Lemma orderedRun_for_of req d v fields u s :
  orderedRun fields s (for_of fields (setIfOwn req d v) u s).
Proof.
  revert u s. induction fields as [|f fields IH]; intros u s; simpl.
  - apply orderedRun_ret.
  - apply (orderedRun_bind [f] fields); [apply orderedRun_setIfOwn|]. intros u1 s1. apply IH.
Qed.

Lemma orderedOutcome_bind {A} F1 F2 d s (m : M A) (k : A → M unit) :
  orderedRun F1 s (m s) →
  (∀ a s1, orderedOutcome F2 d s1 (k a s1)) →
  orderedOutcome (F1 ++ F2) d s ((m ≫= k) s).
Proof.
  intros (L1 & fs1 & Hs1 & HL1 & Hfs1) Hk. rewrite run_bind.
  destruct (m s) as [[a|e] s1] eqn:E; simpl in *; subst s1.
  - destruct (Hk a (addCalls L1 s)) as (L2 & fs2 & HL2 & Hfs2 & Hr).
    exists (L1 ++ L2), (fs1 ++ fs2). split; [by apply Forall2_app|].
    split; [by apply sublist_app|]. rewrite addCalls_app in Hr. exact Hr.
  - exists L1, fs1. split; [done|]. split; [by apply sublist_inserts_r|].
    left. by exists e.
Qed.

Lemma orderedOutcome_commit d u s :
  orderedOutcome [] d s
    ((now ← newDate;
      Domains.updateEntityFields d (<["timeOfLastHeartbeat" := now]> u)) s).
Proof.
  exists [], []. split; [constructor|]. split; [done|]. right. exists u.
  by rewrite addCalls_nil.
Qed.

(** Lines 83-97: the [meta] block and the commit. *)
Lemma put_meta_tail_ordered req d v u s :
  orderedOutcome metaFields d s
    ((meta ← lift (getProp v "meta");
      updated ←
        (if truthy meta then for_of metaFields (setIfOwn req d meta) u
         else mret u);
      now ← newDate;
      Domains.updateEntityFields d (<["timeOfLastHeartbeat" := now]> updated)) s).
Proof.
  rewrite <- (app_nil_l metaFields).
  apply orderedOutcome_bind; [apply orderedRun_lift|]. intros meta s1.
  rewrite <- (app_nil_r metaFields).
  apply orderedOutcome_bind; [|intros u1 s2; apply orderedOutcome_commit].
  destruct (truthy meta); [apply orderedRun_for_of|].
  apply (orderedRun_mono []); [apply sublist_nil_l | apply orderedRun_ret].
Qed.

(** Lines 78-97: the [heartbeat] block, the [meta] block and the commit. *)
Lemma put_heartbeat_tail_ordered req d v u s :
  orderedOutcome ([ "num_users"; "num_anon_users" ] ++ metaFields) d s
    ((hasHeartbeat ← lift (hasOwnProperty v "heartbeat");
      updated ←
        (if hasHeartbeat : bool then
           heartbeat ← lift (getProp v "heartbeat");
           num_users ← lift (getProp heartbeat "num_users");
           updated ← callSetDomainField req d "num_users" num_users u;
           heartbeat ← lift (getProp v "heartbeat");
           num_anon_users ← lift (getProp heartbeat "num_anon_users");
           callSetDomainField req d "num_anon_users" num_anon_users updated
         else mret u);
      meta ← lift (getProp v "meta");
      updated ←
        (if truthy meta then for_of metaFields (setIfOwn req d meta) updated
         else mret updated);
      now ← newDate;
      Domains.updateEntityFields d (<["timeOfLastHeartbeat" := now]> updated)) s).
Proof.
  rewrite <- (app_nil_l ([ "num_users"; "num_anon_users" ] ++ metaFields)).
  apply orderedOutcome_bind; [apply orderedRun_lift|]. intros hasHeartbeat s1.
  apply orderedOutcome_bind; [|intros u1 s2; apply put_meta_tail_ordered].
  destruct hasHeartbeat.
  - rewrite <- (app_nil_l [ "num_users"; "num_anon_users" ]).
    apply orderedRun_bind; [apply orderedRun_lift|]. intros heartbeat s2.
    rewrite <- (app_nil_l [ "num_users"; "num_anon_users" ]).
    apply orderedRun_bind; [apply orderedRun_lift|]. intros num_users s3.
    apply (orderedRun_bind [ "num_users" ] [ "num_anon_users" ]);
      [apply orderedRun_call|]. intros u1 s4.
    rewrite <- (app_nil_l [ "num_anon_users" ]).
    apply orderedRun_bind; [apply orderedRun_lift|]. intros heartbeat' s5.
    rewrite <- (app_nil_l [ "num_anon_users" ]).
    apply orderedRun_bind; [apply orderedRun_lift|]. intros num_anon_users s6.
    apply orderedRun_call.
  - apply (orderedRun_mono []); [apply sublist_nil_l | apply orderedRun_ret].
Qed.

Lemma orderedOutcome_calls F d s r :
  orderedOutcome F d s r → ∃ L, calls r.2 = calls s ++ L.
Proof.
  intros (L & fs & _ & _ & [[e ->]|[u ->]]).
  - by exists L.
  - exists (L ++ [Call_updateEntityFields (domainId d)
                    (<["timeOfLastHeartbeat" := JDate (clock s)]> u)]).
    simpl. by rewrite app_assoc.
Qed.

(** The part of the update handler that follows the payload test. *)
Lemma put_accepted_ordered req d v s :
  vDomain req = Some d →
  checkAccessToEntity (vAuthToken req) d [DOMAIN; SPONSOR; ADMIN] = true →
  getProp (body req) "domain" = Normal v →
  truthy v = true →
  ∃ L fs, engineCallsFor fs L ∧ fs `sublist_of` allowedFields ∧
    ((∃ e, procPutDomains req s = (Throw e, addCalls L s)) ∨
     (∃ u, procPutDomains req s =
        (Normal (),
         addCall Call_next
           (committed d (<["timeOfLastHeartbeat" := JDate (clock s)]> u) (addCalls L s))))).
Proof.
  intros Hd Hacc Hv Ht.
  assert (orderedOutcome allowedFields d s
    ((updated ← for_of flatFields (setIfOwn req d v) ∅;
      hasHeartbeat ← lift (hasOwnProperty v "heartbeat");
      updated ←
        (if hasHeartbeat : bool then
           heartbeat ← lift (getProp v "heartbeat");
           num_users ← lift (getProp heartbeat "num_users");
           updated ← callSetDomainField req d "num_users" num_users updated;
           heartbeat ← lift (getProp v "heartbeat");
           num_anon_users ← lift (getProp heartbeat "num_anon_users");
           callSetDomainField req d "num_anon_users" num_anon_users updated
         else mret updated);
      meta ← lift (getProp v "meta");
      updated ←
        (if truthy meta then for_of metaFields (setIfOwn req d meta) updated
         else mret updated);
      now ← newDate;
      Domains.updateEntityFields d (<["timeOfLastHeartbeat" := now]> updated)) s))
    as (L & fs & HL & Hfs & Hr).
  { apply (orderedOutcome_bind flatFields ([ "num_users"; "num_anon_users" ] ++ metaFields));
      [apply orderedRun_for_of|]. intros u1 s1. apply put_heartbeat_tail_ordered. }
  exists L, fs. split; [done|]. split; [done|].
  unfold procPutDomains. rewrite Hd, Hacc, Hv.
  rewrite run_bind, run_lift_bind, Ht.
  destruct Hr as [[e Hr]|[u Hr]]; rewrite Hr; [left; by exists e | right; by exists u].
Qed.
End Ordered.

Lemma engineFields_app L1 L2 : engineFields (L1 ++ L2) = engineFields L1 ++ engineFields L2.
Proof. unfold engineFields. apply omap_app. Qed.

Lemma engineFields_calls fs L : engineCallsFor fs L → engineFields L = fs.
Proof.
  induction 1 as [|f c fs L [v ->] _ IH]; [done|].
  change (engineFields (Call_setDomainField f v :: L)) with (f :: engineFields L).
  by rewrite IH.
Qed.

Lemma engineCalls_no_other fs L c :
  engineCallsFor fs L → c ∈ L → ∃ f v, c = Call_setDomainField f v.
Proof.
  induction 1 as [|f c' fs L [v ->] _ IH]; intros Hin.
  - by apply elem_of_nil in Hin.
  - apply elem_of_cons in Hin as [->|Hin]; [by exists f, v | by apply IH].
Qed.

Lemma put_shape `{C : Collaborators} (req : Request) (s : State) :
  putShape req s (procPutDomains req s).
Proof.
  unfold putShape.
  destruct (vDomain req) as [d|] eqn:Hd.
  2: { exists [], []. split; [constructor|]. split; [apply sublist_nil_l|]. right. left.
       split; [done|]. exists (default "Domain not found" (vDomainError req)).
       rewrite (put_unresolved req Hd). by repeat split. }
  destruct (checkAccessToEntity (vAuthToken req) d [DOMAIN; SPONSOR; ADMIN]) eqn:Hacc.
  2: { exists [], []. split; [constructor|]. split; [apply sublist_nil_l|]. right. left.
       split; [done|]. exists "Unauthorized". rewrite (put_denied req d Hd Hacc).
       apply respondsFailure_run. }
  destruct (getProp (body req) "domain") as [v|e] eqn:Hv.
  2: { exists [], []. split; [constructor|]. split; [apply sublist_nil_l|]. left.
       exists e. rewrite (put_no_body req d e s Hd Hacc Hv). by rewrite addCalls_nil. }
  destruct (truthy v) eqn:Ht.
  2: { exists [], []. split; [constructor|]. split; [apply sublist_nil_l|]. right. left.
       split; [done|]. exists "badly formed data".
       rewrite (put_no_payload req d v s Hd Hacc Hv Ht). apply respondsFailure_run. }
  destruct (put_accepted_ordered req d v s Hd Hacc Hv Ht) as (L & fs & HL & Hfs & Hr).
  exists L, fs. split; [done|]. split; [done|].
  destruct Hr as [Hr|[u Hr]]; [by left|]. right. right. by exists d, u.
Qed.

(** X2. Whatever the request and however the payload orders its members,
    the engine calls of one update follow the order of the allow-lists (the
    flat list, the two heartbeat counts, the meta list); there are at most
    24 of them. *)
Theorem put_engine_calls_in_allow_list_order `{C : Collaborators} (req : Request) (s : State) :
  ∃ L, calls (procPutDomains req s).2 = calls s ++ L ∧
       engineFields L `sublist_of` allowedFields ∧
       (List.length (engineFields L) ≤ 24)%nat.
Proof.
  assert (Hlen : ∀ fs, fs `sublist_of` allowedFields → (List.length fs ≤ 24)%nat).
  { intros fs Hfs. apply sublist_length in Hfs. exact Hfs. }
  destruct (put_shape req s) as (L & fs & HL & Hfs & [[e Hr]|[[-> [msg Hr]]|(d & u & _ & _ & Hr)]]).
  - exists L. rewrite Hr. simpl. rewrite (engineFields_calls fs L HL). auto.
  - exists [Call_next]. destruct Hr as (_ & _ & _ & _ & Hc). split; [done|].
    split; [apply sublist_nil_l | simpl; lia].
  - exists (L ++ [Call_updateEntityFields (domainId d)
                    (<["timeOfLastHeartbeat" := JDate (clock s)]> u); Call_next]).
    rewrite Hr. simpl. split; [by rewrite <- !app_assoc|].
    rewrite engineFields_app, (engineFields_calls fs L HL). simpl.
    rewrite app_nil_r. auto.
Qed.

(** X3. Whatever the request, an update removes nothing and commits at
    most once.  A commit is addressed to the resolved domain, is made only
    for a caller the permission gate let through, carries the clock's
    reading as [timeOfLastHeartbeat], and belongs to a run that reached its
    end; and a run reached its end exactly when its last call is [next]. *)
Theorem put_commits_at_most_once `{C : Collaborators} (req : Request) (s : State) :
  ∃ L, calls (procPutDomains req s).2 = calls s ++ L ∧
       List.filter isRemoval L = [] ∧
       (List.length (List.filter isCommit L) ≤ 1)%nat ∧
       (∀ id updated, Call_updateEntityFields id updated ∈ L →
          ∃ d, vDomain req = Some d ∧ id = domainId d ∧
               checkAccessToEntity (vAuthToken req) d [DOMAIN; SPONSOR; ADMIN] = true ∧
               updated !! "timeOfLastHeartbeat" = Some (JDate (clock s)) ∧
               (procPutDomains req s).1 = Normal ()) ∧
       ((procPutDomains req s).1 = Normal () ↔ last L = Some Call_next).
Proof.
  assert (Hrem : ∀ fs L, engineCallsFor fs L → List.filter isRemoval L = []).
  { induction 1 as [|f c fs L [v ->] _ IH]; [done|]. simpl. exact IH. }
  assert (Hcom : ∀ fs L, engineCallsFor fs L → List.filter isCommit L = []).
  { induction 1 as [|f c fs L [v ->] _ IH]; [done|]. simpl. exact IH. }
  assert (Hlast : ∀ fs L, engineCallsFor fs L → last L ≠ Some Call_next).
  { intros fs L HL Hl. apply last_Some in Hl as [L' ->].
    destruct (engineCalls_no_other fs (L' ++ [Call_next]) Call_next HL) as (f & v & [=]).
    apply elem_of_app. right. by left. }
  destruct (put_shape req s) as (L & fs & HL & Hfs & [[e Hr]|[[-> [msg Hr]]|(d & u & Hd & Hacc & Hr)]]).
  - exists L. rewrite Hr. simpl. split; [done|]. split; [exact (Hrem fs L HL)|].
    split; [rewrite (Hcom fs L HL); simpl; lia|]. split.
    + intros id updated Hin.
      destruct (engineCalls_no_other fs L _ HL Hin) as (f & v & [=]).
    + split; [done|]. intros Hl. by destruct (Hlast fs L HL).
  - exists [Call_next]. destruct Hr as (Hn & _ & _ & _ & Hc). split; [done|].
    split; [done|]. split; [simpl; lia|]. split.
    + intros id updated Hin. apply list_elem_of_singleton in Hin. discriminate.
    + done.
  - exists (L ++ [Call_updateEntityFields (domainId d)
                    (<["timeOfLastHeartbeat" := JDate (clock s)]> u); Call_next]).
    rewrite Hr. simpl. split; [by rewrite <- !app_assoc|].
    rewrite !List.filter_app, (Hrem fs L HL), (Hcom fs L HL). simpl.
    split; [done|]. split; [lia|]. split.
    + intros id updated Hin. apply elem_of_app in Hin as [Hin|Hin].
      { destruct (engineCalls_no_other fs L _ HL Hin) as (f & v & [=]). }
      apply elem_of_cons in Hin as [[= -> ->]|Hin].
      * exists d. repeat split; try done. apply lookup_insert_eq.
      * apply list_elem_of_singleton in Hin. discriminate.
    + split; [|done]. intros _.
      by rewrite last_app.
Qed.

(** X4. Whatever the request, an update leaves every stored place and the
    record of every domain other than the resolved one as they were. *)
Theorem put_leaves_other_records `{C : Collaborators} (req : Request) (s : State) :
  places (store (procPutDomains req s).2) = places (store s) ∧
  ∀ id, (∀ d, vDomain req = Some d → id ≠ domainId d) →
        domains (store (procPutDomains req s).2) !! id = domains (store s) !! id.
Proof.
  destruct (put_shape req s)
    as (L & fs & _ & _ & [[e Hr]|[[_ [msg Hr]]|(d & u & Hd & _ & Hr)]]).
  - by rewrite Hr.
  - destruct Hr as (_ & _ & _ & -> & _). done.
  - rewrite Hr. simpl. split; [done|]. intros id Hid.
    apply lookup_alter_ne. intros Heq. by apply (Hid d Hd).
Qed.

Lemma lastHeartbeat_committed (d : DomainEntity) (u : VKeyedCollection) (t : Z) (s : State)
    (id : string) :
  lastHeartbeat (store (committed d (<["timeOfLastHeartbeat" := JDate t]> u) s)) id =
    lastHeartbeat (store s) id ∨
  (domainId d = id ∧
   lastHeartbeat (store (committed d (<["timeOfLastHeartbeat" := JDate t]> u) s)) id = Some t).
Proof.
  unfold lastHeartbeat, storedField. simpl.
  destruct (decide (domainId d = id)) as [<-|Hne].
  - rewrite lookup_alter_eq.
    destruct (domains (store s) !! domainId d) as [e|]; [|by left].
    right. split; [done|]. simpl.
    by rewrite (lookup_union_Some_l _ _ _ (JDate t)) by apply lookup_insert_eq.
  - left. by rewrite lookup_alter_ne.
Qed.

Lemma serve_heartbeat_step `{C : Collaborators} (req : Request) (now : Z) (st : Store)
    (id : string) :
  lastHeartbeat (serve procPutDomains now req st) id = lastHeartbeat st id ∨
  lastHeartbeat (serve procPutDomains now req st) id = Some now.
Proof.
  unfold serve.
  destruct (put_shape req {| store := st; vRestResp := newRESTResponse; clock := now;
                             calls := [] |})
    as (L & fs & _ & _ & [[e Hr]|[[_ [msg Hr]]|(d & u & _ & _ & Hr)]]).
  - left. by rewrite Hr.
  - left. destruct Hr as (_ & _ & _ & -> & _). done.
  - rewrite Hr.
    destruct (lastHeartbeat_committed d u now
                (addCalls L {| store := st; vRestResp := newRESTResponse; clock := now;
                               calls := [] |}) id) as [H|[_ H]]; [by left | by right].
Qed.

(** X5. Whatever the request, an update leaves the heartbeat time stored for
    a domain as it was or sets it to the clock's reading; and it sets it
    only for the resolved domain, on behalf of a caller the permission gate
    let through, in a run that reached its end. *)
Theorem put_heartbeat_unchanged_or_now `{C : Collaborators} (req : Request) (s : State)
    (id : string) :
  lastHeartbeat (store (procPutDomains req s).2) id = lastHeartbeat (store s) id ∨
  (lastHeartbeat (store (procPutDomains req s).2) id = Some (clock s) ∧
   (procPutDomains req s).1 = Normal () ∧
   ∃ d, vDomain req = Some d ∧ domainId d = id ∧
        checkAccessToEntity (vAuthToken req) d [DOMAIN; SPONSOR; ADMIN] = true).
Proof.
  destruct (put_shape req s)
    as (L & fs & _ & _ & [[e Hr]|[[_ [msg Hr]]|(d & u & Hd & Hacc & Hr)]]).
  - left. by rewrite Hr.
  - left. destruct Hr as (_ & _ & _ & -> & _). done.
  - rewrite Hr.
    destruct (lastHeartbeat_committed d u (clock s) (addCalls L s) id) as [H|[Hid H]].
    + by left.
    + right. split; [exact H|]. split; [done|]. by exists d.
Qed.

Lemma heartbeats_elem `{C : Collaborators} (id : string) (reqs : list (Z * Request))
    (st : Store) (o : option Z) :
  o ∈ heartbeats id reqs st →
  o = lastHeartbeat st id ∨ ∃ t, t ∈ reqs.*1 ∧ o = Some t.
Proof.
  revert st. induction reqs as [|[now req] rest IH]; intros st Hin; simpl in Hin.
  - by apply elem_of_nil in Hin.
  - pose proof (serve_heartbeat_step req now st id) as Hstep.
    apply elem_of_cons in Hin as [->|Hin].
    + destruct Hstep as [->| ->]; [by left|]. right. exists now. split; [by left|done].
    + destruct (IH _ Hin) as [->|(t & Ht & ->)].
      * destruct Hstep as [->| ->]; [by left|]. right. exists now. split; [by left|done].
      * right. exists t. split; [by right|done].
Qed.

(** X6. Serve any sequence of update requests (accepted or refused, ended
    or aborted) with clock readings that never go back, starting from a
    stored heartbeat that is not after them: the heartbeat times stored for
    a domain, from the initial one on, never go back. *)
Theorem heartbeats_never_go_back `{C : Collaborators} (id : string)
    (reqs : list (Z * Request)) (st : Store) :
  StronglySorted Z.le reqs.*1 →
  (∀ a, lastHeartbeat st id = Some a → Forall (Z.le a) reqs.*1) →
  StronglySorted notAfter (lastHeartbeat st id :: heartbeats id reqs st).
Proof.
  revert st. induction reqs as [|[now req] rest IH]; intros st Hsorted Hinit.
  - repeat constructor.
  - simpl in Hsorted. apply StronglySorted_inv in Hsorted as [Hrest Hnow].
    pose proof (serve_heartbeat_step req now st id) as Hstep.
    constructor.
    + apply IH; [done|]. intros a Ha. destruct Hstep as [Hs|Hs]; rewrite Hs in Ha.
      * specialize (Hinit a Ha). simpl in Hinit. by apply Forall_cons in Hinit as [_ ?].
      * injection Ha as <-. done.
    + apply Forall_forall. intros o Ho a b Ha ->.
      destruct (heartbeats_elem id ((now, req) :: rest) st (Some b) Ho) as [Hb|(t & Ht & [= ->])].
      * rewrite Ha in Hb. injection Hb as ->. lia.
      * specialize (Hinit a Ha). rewrite Forall_forall in Hinit. by apply Hinit.
Qed.

Lemma heartbeats_never_go_back_witness :
  StronglySorted notAfter
    (lastHeartbeat Scenario.theStore "d-1"
       :: heartbeats (C := Reference.collaborators) "d-1" Heartbeats.sequence Scenario.theStore).
Proof.
  apply (heartbeats_never_go_back (C := Reference.collaborators) "d-1"
           Heartbeats.sequence Scenario.theStore).
  - simpl. repeat constructor; lia.
  - intros a Ha. vm_compute in Ha. injection Ha as <-. simpl. repeat constructor; lia.
Defined.

Section Congruence.
Context `{C : Collaborators}.

Lemma for_of_sameOwn req d fields v v' u s :
  sameOwn fields v v' →
  for_of fields (setIfOwn req d v) u s = for_of fields (setIfOwn req d v') u s.
Proof.
  revert u s. induction fields as [|f fields IH]; intros u s Hsame; [done|].
  cbn [for_of]. rewrite !run_bind.
  assert (Hf : setIfOwn req d v f u s = setIfOwn req d v' f u s).
  { unfold setIfOwn. by destruct (Hsame f) as [-> ->]; [by left|]. }
  rewrite Hf. destruct (setIfOwn req d v' f u s) as [[u1|e] s1]; [|done].
  apply IH. intros g Hg. apply Hsame. by right.
Qed.

Lemma put_payload_congruence req v v' s :
  truthy v = truthy v' →
  sameOwn flatFields v v' →
  hasOwnProperty v "heartbeat" = hasOwnProperty v' "heartbeat" →
  getProp v "heartbeat" = getProp v' "heartbeat" →
  sameMeta (getProp v "meta") (getProp v' "meta") →
  procPutDomains (withPayload req v) s = procPutDomains (withPayload req v') s.
Proof.
  intros Ht Hflat Hhas Hhb Hmeta. unfold procPutDomains.
  cbn [withPayload vDomain vAuthToken vAuthAccount body getProp].
  destruct (vDomain req) as [d|]; [|done].
  destruct (checkAccessToEntity (vAuthToken req) d [DOMAIN; SPONSOR; ADMIN]); [|done].
  rewrite !lookup_singleton_eq. cbn [default from_option id].
  change (callSetDomainField (withPayload req v)) with (callSetDomainField req).
  change (callSetDomainField (withPayload req v')) with (callSetDomainField req).
  change (setIfOwn (withPayload req v)) with (setIfOwn req).
  change (setIfOwn (withPayload req v')) with (setIfOwn req).
  rewrite !(run_bind _ (λ _, next)).
  rewrite !run_lift_bind, <- Ht. destruct (truthy v); [|done].
  rewrite !run_bind.
  rewrite (for_of_sameOwn req d flatFields v v' ∅ s Hflat).
  destruct (for_of flatFields (setIfOwn req d v') ∅ s) as [[u1|e] s1]; [|done].
  rewrite !run_lift_bind, <- Hhas.
  destruct (hasOwnProperty v "heartbeat") as [hasHeartbeat|e]; [|done].
  rewrite !run_bind, <- Hhb.
  match goal with
  | |- context [ (if hasHeartbeat then ?a else ?b) s1 ] =>
      destruct ((if hasHeartbeat then a else b) s1) as [[u2|e] s2]; [|done]
  end.
  rewrite !run_lift_bind. unfold sameMeta in Hmeta.
  destruct (getProp v "meta") as [meta|e], (getProp v' "meta") as [meta'|e'];
    try done; [|by subst].
  destruct Hmeta as [Htm Hsame]. rewrite !run_bind, <- Htm.
  destruct (truthy meta) eqn:Hm.
  - by rewrite (for_of_sameOwn req d metaFields meta meta' u2 s2 (Hsame eq_refl)).
  - done.
Qed.
End Congruence.

Lemma hasOwnProperty_insert_ne (m : VKeyedCollection) (k f : string) (x : JValue) :
  f ≠ k → k ≠ "hasOwnProperty" →
  hasOwnProperty (JObj (<[k := x]> m)) f = hasOwnProperty (JObj m) f.
Proof. intros Hf Hk. cbn. by rewrite !lookup_insert_ne. Qed.

Lemma getProp_insert_ne (m : VKeyedCollection) (k f : string) (x : JValue) :
  f ≠ k → getProp (JObj (<[k := x]> m)) f = getProp (JObj m) f.
Proof. intros Hf. cbn. by rewrite lookup_insert_ne. Qed.

Lemma sameOwn_insert (fields : list string) (m : VKeyedCollection) (k : string) (x : JValue) :
  k ∉ fields → k ≠ "hasOwnProperty" →
  sameOwn fields (JObj (<[k := x]> m)) (JObj m).
Proof.
  intros Hk Hown f Hf. assert (f ≠ k) by (intros ->; done).
  split; [by apply hasOwnProperty_insert_ne | by apply getProp_insert_ne].
Qed.

Lemma sameMeta_refl (c : Completion JValue) : sameMeta c c.
Proof. destruct c as [meta|e]; simpl; [|done]. split; [done|]. intros _ f _. done. Qed.

(** X9. A member of the [domain] object whose name is not on the flat
    allow-list and is not [heartbeat], [meta] or [hasOwnProperty] makes no
    difference: with it or without it the update ends the same way, in
    the same state. *)
Theorem put_ignores_unlisted_member `{C : Collaborators} (req : Request)
    (m : VKeyedCollection) (k : string) (x : JValue) (s : State) :
  k ∉ flatFields → k ≠ "heartbeat" → k ≠ "meta" → k ≠ "hasOwnProperty" →
  procPutDomains (withPayload req (JObj (<[k := x]> m))) s =
  procPutDomains (withPayload req (JObj m)) s.
Proof.
  intros Hflat Hhb Hmeta Hown. apply put_payload_congruence.
  - done.
  - by apply sameOwn_insert.
  - by apply hasOwnProperty_insert_ne.
  - by apply getProp_insert_ne.
  - rewrite getProp_insert_ne by done. apply sameMeta_refl.
Qed.

Lemma put_ignores_unlisted_member_witness :
  procPutDomains (C := Reference.collaborators)
    (withPayload Heartbeats.request (JObj (<["password_hash" := JStr "x"]> Heartbeats.payload)))
    Scenario.start =
  procPutDomains (C := Reference.collaborators)
    (withPayload Heartbeats.request (JObj Heartbeats.payload)) Scenario.start.
Proof.
  apply (put_ignores_unlisted_member (C := Reference.collaborators) Heartbeats.request
           Heartbeats.payload "password_hash" (JStr "x") Scenario.start);
    try discriminate.
  apply (bool_decide_unpack _). vm_compute. exact I.
Defined.

(** X10. A member of the [meta] object whose name is not on the meta
    allow-list and is not [hasOwnProperty] makes no difference to the
    update. *)
Theorem put_ignores_unlisted_meta_member `{C : Collaborators} (req : Request)
    (m mm : VKeyedCollection) (k : string) (x : JValue) (s : State) :
  k ∉ metaFields → k ≠ "hasOwnProperty" →
  procPutDomains (withPayload req (JObj (<["meta" := JObj (<[k := x]> mm)]> m))) s =
  procPutDomains (withPayload req (JObj (<["meta" := JObj mm]> m))) s.
Proof.
  intros Hmeta Hown. apply put_payload_congruence.
  - done.
  - intros f Hf. cbn. assert (f ≠ "meta").
    { intros ->. revert Hf. apply (bool_decide_unpack _). vm_compute. exact I. }
    by rewrite !lookup_insert_ne.
  - cbn. by rewrite !lookup_insert_ne.
  - cbn. by rewrite !lookup_insert_ne.
  - cbn. rewrite !lookup_insert_eq. cbn. split; [done|]. intros _.
    by apply sameOwn_insert.
Qed.

Lemma put_ignores_unlisted_meta_member_witness :
  procPutDomains (C := Reference.collaborators)
    (withPayload Heartbeats.request
       (JObj (<["meta" := JObj (<["version" := JStr "9"]> {[ "world_name" := JStr "w" ]})]>
                Heartbeats.payload)))
    Scenario.start =
  procPutDomains (C := Reference.collaborators)
    (withPayload Heartbeats.request
       (JObj (<["meta" := JObj {[ "world_name" := JStr "w" ]}]> Heartbeats.payload)))
    Scenario.start.
Proof.
  apply (put_ignores_unlisted_meta_member (C := Reference.collaborators) Heartbeats.request
           Heartbeats.payload {[ "world_name" := JStr "w" ]} "version" (JStr "9")
           Scenario.start);
    try discriminate.
  apply (bool_decide_unpack _). vm_compute. exact I.
Defined.

(** X11. A [meta] member that JavaScript counts as false ([null], [0],
    [false], the empty string) is as good as no [meta] member: it is
    skipped, and reading it does not throw. *)
Theorem put_ignores_false_meta `{C : Collaborators} (req : Request)
    (m : VKeyedCollection) (meta : JValue) (s : State) :
  truthy meta = false →
  procPutDomains (withPayload req (JObj (<["meta" := meta]> m))) s =
  procPutDomains (withPayload req (JObj (delete "meta" m))) s.
Proof.
  intros Hfalse. apply put_payload_congruence.
  - done.
  - intros f Hf. cbn. assert (f ≠ "meta").
    { intros ->. revert Hf. apply (bool_decide_unpack _). vm_compute. exact I. }
    by rewrite !lookup_insert_ne, !lookup_delete_ne.
  - cbn. by rewrite !lookup_insert_ne, !lookup_delete_ne.
  - cbn. by rewrite !lookup_insert_ne, !lookup_delete_ne.
  - cbn. rewrite lookup_insert_eq, lookup_delete_eq. cbn. rewrite Hfalse.
    split; [done|]. intros [=].
Qed.

Lemma put_ignores_false_meta_witness :
  procPutDomains (C := Reference.collaborators)
    (withPayload Heartbeats.request (JObj (<["meta" := JNull]> Heartbeats.payload)))
    Scenario.start =
  procPutDomains (C := Reference.collaborators)
    (withPayload Heartbeats.request (JObj (delete "meta" Heartbeats.payload)))
    Scenario.start.
Proof.
  apply (put_ignores_false_meta (C := Reference.collaborators) Heartbeats.request
           Heartbeats.payload JNull Scenario.start).
  reflexivity.
Defined.

Section ObjectEdges.
Context `{C : Collaborators}.

(** An object payload, past the flat allow-list: what is left to run. *)
Lemma put_object_after_flat req d m s :
  vDomain req = Some d →
  checkAccessToEntity (vAuthToken req) d [DOMAIN; SPONSOR; ADMIN] = true →
  getProp (body req) "domain" = Normal (JObj m) →
  m !! "hasOwnProperty" = None →
  procPutDomains req s =
    ((hasHeartbeat ← lift (hasOwnProperty (JObj m) "heartbeat");
      updated ←
        (if hasHeartbeat : bool then
           heartbeat ← lift (getProp (JObj m) "heartbeat");
           num_users ← lift (getProp heartbeat "num_users");
           updated ← callSetDomainField req d "num_users" num_users
                       (applyPairs req d (ownPairs flatFields m) ∅);
           heartbeat ← lift (getProp (JObj m) "heartbeat");
           num_anon_users ← lift (getProp heartbeat "num_anon_users");
           callSetDomainField req d "num_anon_users" num_anon_users updated
         else mret (applyPairs req d (ownPairs flatFields m) ∅));
      meta ← lift (getProp (JObj m) "meta");
      updated ←
        (if truthy meta then for_of metaFields (setIfOwn req d meta) updated
         else mret updated);
      now ← newDate;
      Domains.updateEntityFields d (<["timeOfLastHeartbeat" := now]> updated));;
     next) (addCalls (pairCalls (ownPairs flatFields m)) s).
Proof.
  intros Hd Hacc Hv Hm. unfold procPutDomains. rewrite Hd, Hacc, Hv.
  rewrite run_bind, run_lift_bind. cbn [truthy].
  rewrite run_bind, (for_of_obj _ _ _ _ _ _ Hm). reflexivity.
Qed.

Lemma put_object_after_flat_calls req d m s :
  vDomain req = Some d →
  checkAccessToEntity (vAuthToken req) d [DOMAIN; SPONSOR; ADMIN] = true →
  getProp (body req) "domain" = Normal (JObj m) →
  m !! "hasOwnProperty" = None →
  ∃ L, calls (procPutDomains req s).2 = calls s ++ pairCalls (ownPairs flatFields m) ++ L.
Proof.
  intros Hd Hacc Hv Hm. rewrite (put_object_after_flat req d m s Hd Hacc Hv Hm).
  rewrite run_bind.
  destruct (orderedOutcome_calls _ d _ _
              (put_heartbeat_tail_ordered req d (JObj m)
                 (applyPairs req d (ownPairs flatFields m) ∅)
                 (addCalls (pairCalls (ownPairs flatFields m)) s))) as [L HL].
  match goal with
  | |- context [ match ?r with _ => _ end ] => destruct r as [[[]|e] s1] eqn:E
  end.
  - change (calls s1 = (calls s ++ pairCalls (ownPairs flatFields m)) ++ L) in HL.
    exists (L ++ [Call_next]).
    change (calls s1 ++ [Call_next] =
            calls s ++ pairCalls (ownPairs flatFields m) ++ L ++ [Call_next]).
    rewrite HL. apply app_assoc4.
  - change (calls s1 = (calls s ++ pairCalls (ownPairs flatFields m)) ++ L) in HL.
    exists L.
    change (calls s1 = calls s ++ pairCalls (ownPairs flatFields m) ++ L).
    rewrite HL. apply app_assoc3.
Qed.
End ObjectEdges.

(** X12. Presence is what counts, not the value: a flat allow-listed member
    the [domain] object owns is handed to the engine with the value it has,
    be it [null], [false], [0] or the empty string, and that even when the
    handler throws later on. *)
Theorem put_applies_present_member_whatever_its_value `{C : Collaborators} (req : Request)
    (d : DomainEntity) (m : VKeyedCollection) (f : string) (v : JValue) (s : State) :
  vDomain req = Some d →
  checkAccessToEntity (vAuthToken req) d [DOMAIN; SPONSOR; ADMIN] = true →
  getProp (body req) "domain" = Normal (JObj m) →
  m !! "hasOwnProperty" = None →
  f ∈ flatFields →
  m !! f = Some v →
  Call_setDomainField f v ∈ calls (procPutDomains req s).2.
Proof.
  intros Hd Hacc Hv Hm Hf Hfv.
  destruct (put_object_after_flat_calls req d m s Hd Hacc Hv Hm) as [L ->].
  apply elem_of_app. right. apply elem_of_app. left.
  unfold pairCalls. apply list_elem_of_fmap. exists (f, v). split; [done|].
  apply list_elem_of_omap. exists f. split; [done|]. by rewrite Hfv.
Qed.

Lemma put_applies_present_member_whatever_its_value_witness :
  Call_setDomainField "description" (JStr "") ∈
    calls (procPutDomains (C := Reference.collaborators) Heartbeats.request Scenario.start).2.
Proof.
  apply (put_applies_present_member_whatever_its_value (C := Reference.collaborators)
           Heartbeats.request Scenario.theDomain Heartbeats.payload "description" (JStr "")
           Scenario.start);
    try reflexivity.
  apply (bool_decide_unpack _). vm_compute. exact I.
Defined.

(** X13. For a permitted update whose [domain] object has no member named
    [hasOwnProperty], a [heartbeat] member that is [null] or [undefined]
    stops the update with an exception after the engine was called for the
    flat members present: nothing is committed, the response is not written
    and [next] is not called. *)
Theorem put_null_heartbeat_aborts `{C : Collaborators} (req : Request)
    (d : DomainEntity) (m : VKeyedCollection) (hb : JValue) (s : State) :
  vDomain req = Some d →
  checkAccessToEntity (vAuthToken req) d [DOMAIN; SPONSOR; ADMIN] = true →
  getProp (body req) "domain" = Normal (JObj m) →
  m !! "hasOwnProperty" = None →
  m !! "heartbeat" = Some hb →
  hb = JNull ∨ hb = JUndefined →
  ∃ e, procPutDomains req s = (Throw e, addCalls (pairCalls (ownPairs flatFields m)) s).
Proof.
  intros Hd Hacc Hv Hm Hhb Hnull.
  rewrite (put_object_after_flat req d m s Hd Hacc Hv Hm).
  rewrite run_bind, run_lift_bind. cbn [hasOwnProperty]. rewrite Hm.
  rewrite bool_decide_eq_false_2 by (by intros [? ?]).
  rewrite bool_decide_eq_true_2 by eauto.
  rewrite run_bind, run_lift_bind. cbn [getProp]. rewrite Hhb. cbn [default from_option id].
  destruct Hnull as [-> | ->]; rewrite run_lift_bind; cbn [getProp]; eauto.
Qed.

Lemma put_null_heartbeat_aborts_witness :
  ∃ e, procPutDomains (C := Reference.collaborators) Heartbeats.brokenRequest Scenario.start =
         (Throw e, addCalls [ Call_setDomainField "capacity" (JNum 7) ] Scenario.start).
Proof.
  apply (put_null_heartbeat_aborts (C := Reference.collaborators) Heartbeats.brokenRequest
           Scenario.theDomain Heartbeats.broken JNull Scenario.start);
    try reflexivity.
  by left.
Defined.

(** X14. A [domain] object with a member named [hasOwnProperty] stops the
    update at the first allow-list test, before any engine call: the state is
    left exactly as it was. *)
Theorem put_shadowed_hasOwnProperty_aborts `{C : Collaborators} (req : Request)
    (d : DomainEntity) (m : VKeyedCollection) (s : State) :
  vDomain req = Some d →
  checkAccessToEntity (vAuthToken req) d [DOMAIN; SPONSOR; ADMIN] = true →
  getProp (body req) "domain" = Normal (JObj m) →
  is_Some (m !! "hasOwnProperty") →
  procPutDomains req s =
    (Throw (TypeError "valuesToSet.hasOwnProperty is not a function"), s).
Proof.
  intros Hd Hacc Hv Hm. unfold procPutDomains. rewrite Hd, Hacc, Hv.
  rewrite run_bind, run_lift_bind. cbn [truthy].
  rewrite run_bind. unfold flatFields at 1. cbn [for_of].
  rewrite run_bind. unfold setIfOwn at 1. rewrite run_lift_bind. cbn [hasOwnProperty].
  by rewrite bool_decide_eq_true_2.
Qed.

Lemma put_shadowed_hasOwnProperty_aborts_witness :
  procPutDomains (C := Reference.collaborators) Heartbeats.shadowedRequest Scenario.start =
    (Throw (TypeError "valuesToSet.hasOwnProperty is not a function"), Scenario.start).
Proof.
  apply (put_shadowed_hasOwnProperty_aborts (C := Reference.collaborators)
           Heartbeats.shadowedRequest Scenario.theDomain Heartbeats.shadowed Scenario.start);
    try reflexivity.
  vm_compute. eauto.
Defined.

(** X15. For a permitted update whose [domain] object has no member named
    [hasOwnProperty], a [heartbeat] member other than [null] and [undefined]
    makes the handler call the engine for [num_users] and then for
    [num_anon_users], right after the flat members, with whatever reading
    the member gives: a count the heartbeat object lacks is passed as
    [undefined]. *)
Theorem put_passes_both_heartbeat_counts `{C : Collaborators} (req : Request)
    (d : DomainEntity) (m : VKeyedCollection) (hb : JValue) (s : State) :
  vDomain req = Some d →
  checkAccessToEntity (vAuthToken req) d [DOMAIN; SPONSOR; ADMIN] = true →
  getProp (body req) "domain" = Normal (JObj m) →
  m !! "hasOwnProperty" = None →
  m !! "heartbeat" = Some hb →
  hb ≠ JNull → hb ≠ JUndefined →
  ∃ num_users num_anon_users L,
    getProp hb "num_users" = Normal num_users ∧
    getProp hb "num_anon_users" = Normal num_anon_users ∧
    (∀ h, hb = JObj h →
          num_users = default JUndefined (h !! "num_users") ∧
          num_anon_users = default JUndefined (h !! "num_anon_users")) ∧
    calls (procPutDomains req s).2 =
      calls s ++ pairCalls (ownPairs flatFields m)
        ++ [ Call_setDomainField "num_users" num_users;
             Call_setDomainField "num_anon_users" num_anon_users ] ++ L.
Proof.
  intros Hd Hacc Hv Hm Hhb Hnull Hundef.
  assert (∃ nu na, getProp hb "num_users" = Normal nu ∧
                   getProp hb "num_anon_users" = Normal na) as (nu & na & Hnu & Hna).
  { destruct hb; try done; cbn; repeat case_bool_decide; eauto. }
  exists nu, na.
  assert (Hpairs : heartbeatPairs m = Normal [("num_users", nu); ("num_anon_users", na)]).
  { unfold heartbeatPairs. by rewrite Hhb, Hnu, Hna. }
  rewrite (put_object_after_flat req d m s Hd Hacc Hv Hm).
  rewrite run_bind, run_lift_bind. cbn [hasOwnProperty]. rewrite Hm.
  rewrite bool_decide_eq_false_2 by (by intros [? ?]).
  rewrite run_bind, (heartbeat_block req d m _ _ _ Hpairs).
  destruct (orderedOutcome_calls _ d _ _
              (put_meta_tail_ordered req d (JObj m)
                 (applyPairs req d [("num_users", nu); ("num_anon_users", na)]
                    (applyPairs req d (ownPairs flatFields m) ∅))
                 (addCalls (pairCalls [("num_users", nu); ("num_anon_users", na)])
                    (addCalls (pairCalls (ownPairs flatFields m)) s)))) as [L HL].
  assert (Hobj : ∀ h, hb = JObj h →
                       nu = default JUndefined (h !! "num_users") ∧
                       na = default JUndefined (h !! "num_anon_users")).
  { intros h ->. cbn [getProp] in Hnu, Hna.
    injection Hnu as <-. injection Hna as <-. split; reflexivity. }
  match goal with
  | |- context [ match ?r with _ => _ end ] => destruct r as [[[]|e] s1] eqn:E
  end.
  - change (calls s1 =
            ((calls s ++ pairCalls (ownPairs flatFields m))
               ++ [ Call_setDomainField "num_users" nu;
                    Call_setDomainField "num_anon_users" na ]) ++ L) in HL.
    exists (L ++ [Call_next]).
    split; [exact Hnu|]. split; [exact Hna|]. split; [exact Hobj|].
    change (calls s1 ++ [Call_next] =
            calls s ++ pairCalls (ownPairs flatFields m)
              ++ [ Call_setDomainField "num_users" nu;
                   Call_setDomainField "num_anon_users" na ] ++ L ++ [Call_next]).
    rewrite HL. apply app_assoc5.
  - change (calls s1 =
            ((calls s ++ pairCalls (ownPairs flatFields m))
               ++ [ Call_setDomainField "num_users" nu;
                    Call_setDomainField "num_anon_users" na ]) ++ L) in HL.
    exists L.
    split; [exact Hnu|]. split; [exact Hna|]. split; [exact Hobj|].
    change (calls s1 =
            calls s ++ pairCalls (ownPairs flatFields m)
              ++ [ Call_setDomainField "num_users" nu;
                   Call_setDomainField "num_anon_users" na ] ++ L).
    rewrite HL. apply app_assoc4.
Qed.

Lemma put_passes_both_heartbeat_counts_witness :
  ∃ L, calls (procPutDomains (C := Reference.collaborators)
                Heartbeats.request Scenario.start).2 =
         [ Call_setDomainField "capacity" (JNum 0);
           Call_setDomainField "description" (JStr "");
           Call_setDomainField "num_users" (JNum 3);
           Call_setDomainField "num_anon_users" JUndefined ] ++ L.
Proof.
  destruct (put_passes_both_heartbeat_counts (C := Reference.collaborators)
              Heartbeats.request Scenario.theDomain Heartbeats.payload
              (JObj {[ "num_users" := JNum 3 ]}) Scenario.start
              ltac:(reflexivity) ltac:(reflexivity) ltac:(reflexivity)
              ltac:(reflexivity) ltac:(reflexivity) ltac:(discriminate) ltac:(discriminate))
    as (nu & na & L & Hnu & Hna & _ & Hcalls).
  exists L. rewrite Hcalls. vm_compute in Hnu, Hna.
  injection Hnu as <-. injection Hna as <-. vm_compute. reflexivity.
Defined.

(** X8. An update whose payload is an object in the expected form (no
    member named [hasOwnProperty], a [heartbeat] that is absent or not
    [null], a [meta] that is absent, false or such an object) always runs to
    its end: the engine is called for the members present, in allow-list
    order, the change-set so built is committed once with the clock's
    reading, [next] is called and the response is not written. *)
Theorem put_wellformed_payload_commits `{C : Collaborators} (req : Request)
    (d : DomainEntity) (m : VKeyedCollection) (hp mp : list (string * JValue)) (s : State) :
  vDomain req = Some d →
  checkAccessToEntity (vAuthToken req) d [DOMAIN; SPONSOR; ADMIN] = true →
  getProp (body req) "domain" = Normal (JObj m) →
  m !! "hasOwnProperty" = None →
  heartbeatPairs m = Normal hp →
  metaPairs m = Some mp →
  let pairs := ownPairs flatFields m ++ hp ++ mp in
  let updated := <["timeOfLastHeartbeat" := JDate (clock s)]> (applyPairs req d pairs ∅) in
  let r := procPutDomains req s in
  r.1 = Normal () ∧
  calls r.2 = calls s ++ pairCalls pairs
                ++ [ Call_updateEntityFields (domainId d) updated; Call_next ] ∧
  domains (store r.2) = alter (Domains.mergeFields updated) (domainId d) (domains (store s)) ∧
  vRestResp r.2 = vRestResp s.
Proof.
  intros Hd Hacc Hv Hm Hhp Hmp pairs updated r. unfold r.
  rewrite (put_object_payload req d m hp mp s Hd Hacc Hv Hm Hhp Hmp).
  split; [reflexivity|]. split; [|split; reflexivity].
  exact (app_assoc4 (calls s) (pairCalls pairs)
           [Call_updateEntityFields (domainId d) updated] [Call_next]).
Qed.

Lemma put_wellformed_payload_commits_witness :
  let r := procPutDomains (C := Reference.collaborators) Heartbeats.request Scenario.start in
  r.1 = Normal () ∧
  calls r.2 =
    [ Call_setDomainField "capacity" (JNum 0);
      Call_setDomainField "description" (JStr "");
      Call_setDomainField "num_users" (JNum 3);
      Call_setDomainField "num_anon_users" JUndefined;
      Call_updateEntityFields "d-1"
        (<["timeOfLastHeartbeat" := JDate 100]>
           (<["num_users" := JNum 3]>
              (<["description" := JStr ""]> {[ "capacity" := JNum 0 ]})));
      Call_next ].
Proof.
  pose proof (put_wellformed_payload_commits (C := Reference.collaborators)
                Heartbeats.request Scenario.theDomain Heartbeats.payload
                [ ("num_users", JNum 3); ("num_anon_users", JUndefined) ] []
                Scenario.start
                ltac:(reflexivity) ltac:(reflexivity) ltac:(reflexivity)
                ltac:(reflexivity) ltac:(reflexivity) ltac:(reflexivity))
    as (Hrun & Hcalls & _).
  split; [exact Hrun|]. cbv zeta in Hcalls. rewrite Hcalls. vm_compute. reflexivity.
Defined.

(** X7. An update that passed the three tests and ran to its end made its
    one commit after all its engine calls, with the clock's reading as
    [timeOfLastHeartbeat] whatever the engine wrote under that name; if the
    store holds the domain, that reading is its heartbeat time from then
    on. *)
Theorem put_completed_update_stamps_heartbeat `{C : Collaborators} (req : Request)
    (d : DomainEntity) (v : JValue) (s : State) :
  vDomain req = Some d →
  checkAccessToEntity (vAuthToken req) d [DOMAIN; SPONSOR; ADMIN] = true →
  getProp (body req) "domain" = Normal v →
  truthy v = true →
  (procPutDomains req s).1 = Normal () →
  (∃ L updated,
     calls (procPutDomains req s).2 =
       calls s ++ L ++ [Call_updateEntityFields (domainId d) updated; Call_next] ∧
     List.filter isCommit L = [] ∧
     updated !! "timeOfLastHeartbeat" = Some (JDate (clock s))) ∧
  (is_Some (domains (store s) !! domainId d) →
   lastHeartbeat (store (procPutDomains req s).2) (domainId d) = Some (clock s)).
Proof.
  intros Hd Hacc Hv Ht Hok. split.
  - destruct (put_completed_commits_once req d v s Hd Hacc Hv Ht Hok)
      as (L & updated & Hcalls & Hnone & Hstamp & _).
    by exists L, updated.
  - intros Hin. by apply (put_completed_stamps_clock req d v s).
Qed.

Lemma put_completed_update_stamps_heartbeat_witness :
  lastHeartbeat
    (store (procPutDomains (C := Reference.collaborators) Heartbeats.request Scenario.start).2)
    "d-1" = Some 100%Z.
Proof.
  apply (put_completed_update_stamps_heartbeat (C := Reference.collaborators)
           Heartbeats.request Scenario.theDomain (JObj Heartbeats.payload) Scenario.start);
    try reflexivity.
  vm_compute. eauto.
Defined.

(** X1. A read of a resolved Domain runs to its end and reports no
    failure: the snapshot is returned as [Data.domain] and, the same object,
    as the top-level field [domain]; its [id] reads the same as its
    [domainId] and every other member is as [buildDomainInfoV1] gave it;
    the store is untouched and [next] is the only call. *)
Theorem get_resolved_reply `{C : Collaborators} (req : Request) (d : DomainEntity)
    (s : State) :
  vDomain req = Some d →
  let r := procGetDomainsDomainid req s in
  ∃ info : VKeyedCollection,
    r.1 = Normal () ∧
    Data (vRestResp r.2) = JObj {[ "domain" := JObj info ]} ∧
    additionalFields (vRestResp r.2) !! "domain" = Some (JObj info) ∧
    (∀ k, k ≠ "domain" →
          additionalFields (vRestResp r.2) !! k = additionalFields (vRestResp s) !! k) ∧
    getProp (JObj info) "id" = getProp (JObj info) "domainId" ∧
    (∀ k, k ≠ "id" → info !! k = buildDomainInfoV1 d !! k) ∧
    success (vRestResp r.2) = success (vRestResp s) ∧
    message (vRestResp r.2) = message (vRestResp s) ∧
    HTTPStatus (vRestResp r.2) = HTTPStatus (vRestResp s) ∧
    store r.2 = store s ∧
    calls r.2 = calls s ++ [Call_next].
Proof.
  intros Hd r. unfold r, procGetDomainsDomainid. rewrite Hd.
  exists (<["id" := default JUndefined (buildDomainInfoV1 d !! "domainId")]>
            (buildDomainInfoV1 d)).
  simpl. split; [done|]. split; [done|]. split; [apply lookup_insert_eq|].
  split; [intros k Hk; by rewrite lookup_insert_ne|]. split.
  - rewrite lookup_insert_eq, lookup_insert_ne by done. done.
  - split; [intros k Hk; by rewrite lookup_insert_ne|]. done.
Qed.

Lemma get_resolved_reply_witness :
  let r := procGetDomainsDomainid (C := Reference.collaborators)
             Heartbeats.request Scenario.start in
  ∃ info : VKeyedCollection,
    r.1 = Normal () ∧
    Data (vRestResp r.2) = JObj {[ "domain" := JObj info ]} ∧
    additionalFields (vRestResp r.2) !! "domain" = Some (JObj info) ∧
    (∀ k, k ≠ "domain" →
          additionalFields (vRestResp r.2) !! k = additionalFields (vRestResp Scenario.start) !! k) ∧
    getProp (JObj info) "id" = getProp (JObj info) "domainId" ∧
    (∀ k, k ≠ "id" →
          info !! k = buildDomainInfoV1 (Collaborators := Reference.collaborators)
                        Scenario.theDomain !! k) ∧
    success (vRestResp r.2) = success (vRestResp Scenario.start) ∧
    message (vRestResp r.2) = message (vRestResp Scenario.start) ∧
    HTTPStatus (vRestResp r.2) = HTTPStatus (vRestResp Scenario.start) ∧
    store r.2 = store Scenario.start ∧
    calls r.2 = calls Scenario.start ++ [Call_next].
Proof.
  apply (get_resolved_reply (C := Reference.collaborators) Heartbeats.request
           Scenario.theDomain Scenario.start).
  reflexivity.
Defined.

Section DeleteRun.
Context `{C : Collaborators}.

Lemma delete_admin_run req d s :
  callerIsAdmin req = true →
  vDomain req = Some d →
  procDeleteDomains req s =
    (Normal (),
     addCall Call_next
       (setStore (λ st, {| domains := domains st;
                           places := withoutPlaces
                                       (List.filter (Places.matches (FilterDomainId (domainId d)))
                                          (places (store s)))
                                       (places st) |})
          (addCalls (removalCalls (List.filter (Places.matches (FilterDomainId (domainId d)))
                                     (places (store s))))
             (setStore (λ st, {| domains := delete (domainId d) (domains st);
                                 places := places st |})
                (addCall (Call_removeDomain (domainId d)) s))))).
Proof.
  intros Hadmin Hd. unfold procDeleteDomains, callerIsAdmin in *.
  destruct (vAuthAccount req) as [account|]; [|done]. rewrite Hadmin, Hd.
  rewrite run_bind, run_bind, run_removeDomain. cbv beta iota.
  unfold Places.enumerateAsync. rewrite run_gets_bind.
  rewrite run_remove_places. reflexivity.
Qed.
End DeleteRun.

(** X16. When no place of another domain shares its identifier with a
    place of the deleted one, an administrator's delete leaves exactly the
    places of the other domains, in their order, and the record of every
    other domain; the response is not written. *)
Theorem delete_leaves_other_records `{C : Collaborators} (req : Request) (d : DomainEntity)
    (s : State) :
  callerIsAdmin req = true →
  vDomain req = Some d →
  (∀ p q, p ∈ places (store s) → q ∈ places (store s) →
          placeDomainId p = domainId d → placeId q = placeId p →
          placeDomainId q = domainId d) →
  let r := procDeleteDomains req s in
  places (store r.2) =
    List.filter (λ p, negb (bool_decide (placeDomainId p = domainId d))) (places (store s)) ∧
  (∀ id, id ≠ domainId d → domains (store r.2) !! id = domains (store s) !! id) ∧
  vRestResp r.2 = vRestResp s.
Proof.
  intros Hadmin Hd Hids r. unfold r. rewrite (delete_admin_run req d s Hadmin Hd). simpl.
  split; [|split; [|done]].
  - unfold withoutPlaces. apply List.filter_ext_in. intros q Hq. f_equal.
    apply list_elem_of_In in Hq. apply bool_decide_ext. split.
    + intros Hin. apply list_elem_of_fmap in Hin as (p & Hid & Hp).
      apply list_elem_of_In, filter_In in Hp as [Hp Hmatch].
      apply list_elem_of_In in Hp. apply bool_decide_eq_true in Hmatch.
      by apply (Hids p q).
    + intros Hdom. apply list_elem_of_fmap. exists q. split; [done|].
      apply list_elem_of_In, filter_In. split; [by apply list_elem_of_In|].
      by apply bool_decide_eq_true_2.
  - intros id Hid. by apply lookup_delete_ne.
Qed.

Lemma delete_leaves_other_records_witness :
  places (store (procDeleteDomains (C := Reference.collaborators)
                   (Scenario.deleteBy (Some Scenario.admin) (Some Scenario.theDomain))
                   Scenario.start).2) =
    [ {| placeId := "p-2"; placeDomainId := "d-2" |} ].
Proof.
  destruct (delete_leaves_other_records (C := Reference.collaborators)
              (Scenario.deleteBy (Some Scenario.admin) (Some Scenario.theDomain))
              Scenario.theDomain Scenario.start) as (Hplaces & _).
  - reflexivity.
  - reflexivity.
  - intros p q Hp Hq Hdom Hid.
    apply list_elem_of_In in Hp, Hq. simpl in Hp, Hq.
    destruct Hp as [<-|[<-|[<-|[<-|[]]]]]; destruct Hq as [<-|[<-|[<-|[<-|[]]]]];
      simpl in *; done.
  - rewrite Hplaces. vm_compute. reflexivity.
Defined.

Lemma withoutPlaces_nil (ps : list PlaceEntity) : withoutPlaces [] ps = ps.
Proof.
  unfold withoutPlaces. induction ps as [|p ps IH]; [done|].
  cbn [List.filter]. rewrite IH.
  rewrite bool_decide_eq_false_2; [done|]. intros Hin. by apply elem_of_nil in Hin.
Qed.

Lemma no_match_left (id : string) (ps : list PlaceEntity) :
  List.filter (Places.matches (FilterDomainId id))
    (withoutPlaces (List.filter (Places.matches (FilterDomainId id)) ps) ps) = [].
Proof.
  destruct (List.filter _ (withoutPlaces _ ps)) as [|p l] eqn:E; [done|]. exfalso.
  assert (Hp : In p (List.filter (Places.matches (FilterDomainId id))
                       (withoutPlaces (List.filter (Places.matches (FilterDomainId id)) ps) ps)))
    by (rewrite E; by left).
  apply filter_In in Hp as [Hp Hmatch]. unfold withoutPlaces in Hp.
  apply filter_In in Hp as [Hp Hkeep].
  apply negb_true_iff, bool_decide_eq_false in Hkeep. apply Hkeep.
  apply list_elem_of_fmap. exists p. split; [done|].
  apply list_elem_of_In, filter_In. by split.
Qed.

(** X17. Repeating an administrator's delete changes nothing more: the
    second run finds no place to remove, asks once more for the removal of
    the domain, and leaves the store as the first run left it. *)
Theorem delete_again_changes_nothing `{C : Collaborators} (req : Request) (d : DomainEntity)
    (s : State) :
  callerIsAdmin req = true →
  vDomain req = Some d →
  let s1 := (procDeleteDomains req s).2 in
  let r := procDeleteDomains req s1 in
  r.1 = Normal () ∧
  store r.2 = store s1 ∧
  calls r.2 = calls s1 ++ [Call_removeDomain (domainId d); Call_next].
Proof.
  intros Hadmin Hd s1 r. unfold r. rewrite (delete_admin_run req d s1 Hadmin Hd).
  unfold s1. rewrite (delete_admin_run req d s Hadmin Hd). simpl.
  rewrite no_match_left. split; [done|]. split.
  - rewrite withoutPlaces_nil. f_equal. apply delete_delete_eq.
  - simpl. by rewrite app_nil_r, <- !app_assoc.
Qed.

Lemma delete_again_changes_nothing_witness :
  let s1 := (procDeleteDomains (C := Reference.collaborators)
               (Scenario.deleteBy (Some Scenario.admin) (Some Scenario.theDomain))
               Scenario.start).2 in
  let r := procDeleteDomains (C := Reference.collaborators)
             (Scenario.deleteBy (Some Scenario.admin) (Some Scenario.theDomain)) s1 in
  r.1 = Normal () ∧
  store r.2 = store s1 ∧
  calls r.2 = calls s1 ++ [Call_removeDomain "d-1"; Call_next].
Proof.
  apply (delete_again_changes_nothing (C := Reference.collaborators)
           (Scenario.deleteBy (Some Scenario.admin) (Some Scenario.theDomain))
           Scenario.theDomain Scenario.start);
    reflexivity.
Defined.

(** ** Update: the two payload shapes, in one run *)

(** Three ways an object payload makes the handler throw. *)
Section Aborts.
Context `{C : Collaborators}.

Lemma put_shadowed_run req d m s :
  vDomain req = Some d →
  checkAccessToEntity (vAuthToken req) d [DOMAIN; SPONSOR; ADMIN] = true →
  getProp (body req) "domain" = Normal (JObj m) →
  is_Some (m !! "hasOwnProperty") →
  (procPutDomains req s).1 ≠ Normal ().
Proof.
  intros Hd Hacc Hv Hm. unfold procPutDomains. rewrite Hd, Hacc, Hv.
  rewrite run_bind, run_lift_bind. cbn [truthy].
  rewrite run_bind. unfold flatFields at 1. cbn [for_of].
  rewrite run_bind. unfold setIfOwn at 1. rewrite run_lift_bind. cbn [hasOwnProperty].
  by rewrite bool_decide_eq_true_2.
Qed.

Lemma put_heartbeat_throw_run req d m e s :
  vDomain req = Some d →
  checkAccessToEntity (vAuthToken req) d [DOMAIN; SPONSOR; ADMIN] = true →
  getProp (body req) "domain" = Normal (JObj m) →
  m !! "hasOwnProperty" = None →
  heartbeatPairs m = Throw e →
  (procPutDomains req s).1 ≠ Normal ().
Proof.
  intros Hd Hacc Hv Hm Hhp.
  rewrite (put_object_after_flat req d m s Hd Hacc Hv Hm).
  rewrite run_bind, run_lift_bind. cbn [hasOwnProperty]. rewrite Hm.
  rewrite bool_decide_eq_false_2 by (by intros [? ?]).
  unfold heartbeatPairs in Hhp.
  destruct (m !! "heartbeat") as [hb|] eqn:Hhb; [|discriminate].
  rewrite bool_decide_eq_true_2 by eauto.
  rewrite run_bind, run_lift_bind. cbn [getProp]. rewrite Hhb. cbn [default from_option id].
  rewrite run_lift_bind.
  destruct (getProp hb "num_users") as [nu|e1]; [|done].
  destruct (getProp hb "num_anon_users") as [na|e2] eqn:Hna; [discriminate|].
  rewrite run_bind, run_call, run_lift_bind, run_lift_bind, Hna. done.
Qed.

Lemma put_meta_shadowed_run req d m mm hp s :
  vDomain req = Some d →
  checkAccessToEntity (vAuthToken req) d [DOMAIN; SPONSOR; ADMIN] = true →
  getProp (body req) "domain" = Normal (JObj m) →
  m !! "hasOwnProperty" = None →
  heartbeatPairs m = Normal hp →
  m !! "meta" = Some (JObj mm) →
  is_Some (mm !! "hasOwnProperty") →
  (procPutDomains req s).1 ≠ Normal ().
Proof.
  intros Hd Hacc Hv Hm Hhp Hmeta Hmm.
  rewrite (put_object_after_flat req d m s Hd Hacc Hv Hm).
  rewrite run_bind, run_lift_bind. cbn [hasOwnProperty]. rewrite Hm.
  rewrite bool_decide_eq_false_2 by (by intros [? ?]).
  rewrite run_bind, (heartbeat_block req d m _ _ _ Hhp).
  rewrite run_lift_bind. cbn [getProp]. rewrite Hmeta. cbn [default from_option id truthy].
  rewrite run_bind. unfold metaFields at 1. cbn [for_of].
  rewrite run_bind. unfold setIfOwn at 1. rewrite run_lift_bind. cbn [hasOwnProperty].
  by rewrite bool_decide_eq_true_2.
Qed.
End Aborts.

(** C5, as the code has it.  The two shapes are not exclusive.  Take an
    update of a resolved Domain by a permitted caller, whose [domain] value
    is an object that holds a [meta] object, and that runs to its end.  The
    engine is called for the flat allow-listed members present in the
    [domain] object, then for the heartbeat counts if a [heartbeat] member
    is present, then for the meta allow-listed members present in the [meta]
    object, each with the value it has and each list in its own order; the
    change-set the engine built over those calls, stamped with
    [timeOfLastHeartbeat], is committed once, and [next] follows. *)
Theorem put_applies_both_shapes `{C : Collaborators} (req : Request) (d : DomainEntity)
    (m mm : VKeyedCollection) (s : State) :
  vDomain req = Some d →
  checkAccessToEntity (vAuthToken req) d [DOMAIN; SPONSOR; ADMIN] = true →
  getProp (body req) "domain" = Normal (JObj m) →
  m !! "meta" = Some (JObj mm) →
  (procPutDomains req s).1 = Normal () →
  ∃ hp, heartbeatPairs m = Normal hp ∧
    let pairs := ownPairs flatFields m ++ hp ++ ownPairs metaFields mm in
    calls (procPutDomains req s).2 =
      calls s ++ pairCalls pairs
        ++ [ Call_updateEntityFields (domainId d)
               (<["timeOfLastHeartbeat" := JDate (clock s)]> (applyPairs req d pairs ∅));
             Call_next ] ∧
    (∀ f v, f ∈ flatFields → m !! f = Some v → Call_setDomainField f v ∈ pairCalls pairs) ∧
    (∀ f v, f ∈ metaFields → mm !! f = Some v → Call_setDomainField f v ∈ pairCalls pairs).
Proof.
  intros Hd Hacc Hv Hmeta Hok.
  destruct (m !! "hasOwnProperty") as [w|] eqn:Hm.
  { destruct (put_shadowed_run req d m s Hd Hacc Hv); [by eexists | done]. }
  destruct (heartbeatPairs m) as [hp|e] eqn:Hhp.
  2: { by destruct (put_heartbeat_throw_run req d m e s Hd Hacc Hv Hm Hhp). }
  destruct (mm !! "hasOwnProperty") as [w|] eqn:Hmm.
  { destruct (put_meta_shadowed_run req d m mm hp s Hd Hacc Hv Hm Hhp Hmeta);
      [by eexists | done]. }
  assert (Hmp : metaPairs m = Some (ownPairs metaFields mm)).
  { unfold metaPairs. rewrite Hmeta, Hmm.
    by rewrite bool_decide_eq_false_2 by (by intros [? ?]). }
  exists hp. split; [done|]. intros pairs. split; [|split].
  - rewrite (put_object_payload req d m hp _ s Hd Hacc Hv Hm Hhp Hmp).
    symmetry.
    exact (eq_sym (app_assoc4 (calls s) (pairCalls pairs)
             [Call_updateEntityFields (domainId d)
                (<["timeOfLastHeartbeat" := JDate (clock s)]> (applyPairs req d pairs ∅))]
             [Call_next])).
  - intros f v Hf Hfv. unfold pairCalls. apply list_elem_of_fmap. exists (f, v).
    split; [done|]. apply elem_of_app. left.
    apply list_elem_of_omap. exists f. split; [done|]. by rewrite Hfv.
  - intros f v Hf Hfv. unfold pairCalls. apply list_elem_of_fmap. exists (f, v).
    split; [done|]. apply elem_of_app. right. apply elem_of_app. right.
    apply list_elem_of_omap. exists f. split; [done|]. by rewrite Hfv.
Qed.

(** [{version: "1.0", meta: {contact_info: "ops"}}], sent by the domain. *)
Lemma put_applies_both_shapes_witness :
  calls BothShapes.result.2 =
    [ Call_setDomainField "version" (JStr "1.0");
      Call_setDomainField "contact_info" (JStr "ops");
      Call_updateEntityFields "d-1"
        (<["timeOfLastHeartbeat" := JDate 100]>
           (<["contact_info" := JStr "ops"]> {[ "version" := JStr "1.0" ]}));
      Call_next ].
Proof.
  destruct (put_applies_both_shapes (C := Reference.collaborators)
              BothShapes.request Scenario.theDomain BothShapes.payload
              {[ "contact_info" := JStr "ops" ]} Scenario.start
              ltac:(reflexivity) ltac:(reflexivity) ltac:(reflexivity)
              ltac:(reflexivity) ltac:(vm_compute; reflexivity))
    as (hp & Hhp & Hcalls & _).
  vm_compute in Hhp. injection Hhp as <-.
  unfold BothShapes.result. cbv zeta in Hcalls. rewrite Hcalls. vm_compute. reflexivity.
Defined.

(** ** Update: names outside the allow-lists *)



